(** * FuseDepthTool: a shallow embedding of gui/tools/FuseDepthTool.cxx

    The tool collects one (camera, depth map) pair for every frame that has
    both, hands the pairs to the configured [integrate_depth_maps] algorithm
    and publishes the returned volume as a VTK grid.

    Conventions of the embedding:
    - C++ [int], [size_t], [vtkIdType] and [frame_id_t] values are [Z];
      the places where a width matters carry an explicit range hypothesis.
    - [double] is the primitive binary64 type of Rocq; values are only
      copied, and equality of two doubles below is identity of the stored
      value.
    - Raw memory (the pixels of a [kwiver::vital::image], the tuples of a
      [vtkDoubleArray]) is a list of cells, a cell being [None] while it
      has never been written.
    - A computation that dereferences a null pointer or touches memory out
      of range has the outcome [Undefined]. *)

From Stdlib Require Import ZArith Lia.
From Stdlib Require Import Floats.PrimFloat Numbers.Cyclic.Int63.Uint63.
From stdpp Require Import gmap strings list list_numbers sorting.

Open Scope Z_scope.

(** ** Outcomes of C++ computations *)

Inductive outcome (A : Type) : Type :=
| Returned (a : A)
| Undefined.
Arguments Returned {A} a.
Arguments Undefined {A}.

#[global] Instance outcome_ret : MRet outcome := @Returned.
#[global] Instance outcome_bind : MBind outcome :=
  λ A B f m, match m with Returned a => f a | Undefined => Undefined end.

(** A counted [for] loop: the body runs once per index, in list order, and
    the first undefined step makes the loop undefined. *)
Fixpoint for_each {S : Type} (body : Z → S → outcome S) (idx : list Z) (s : S)
  : outcome S :=
  match idx with
  | [] => Returned s
  | i :: rest => s' ← body i s; for_each body rest s'
  end.

(** ** Doubles and raw memory *)

Definition double : Type := float.

Definition buffer : Type := list (option double).

Definition lookupZ {A : Type} (l : list A) (i : Z) : option A :=
  if decide (0 ≤ i) then l !! Z.to_nat i else None.

(** Reading a cell returns its value only when the cell exists and has
    been written. *)
Definition buffer_read (b : buffer) (i : Z) : outcome double :=
  match lookupZ b i with
  | Some (Some v) => Returned v
  | _ => Undefined
  end.

Definition buffer_write (b : buffer) (i : Z) (v : double) : outcome buffer :=
  if decide (0 ≤ i < Z.of_nat (length b))
  then Returned (<[Z.to_nat i := Some v]> b)
  else Undefined.

(** ** kwiver::vital::image (library type, used through its constructor and
    [at<double>]) *)

Record image : Type := mk_image {
  width : Z;
  height : Z;
  depth : Z;
  w_step : Z;
  h_step : Z;
  d_step : Z;
  first_pixel : buffer
}.

(** [image(width, height, depth, interleave, traits)]: fresh, unwritten
    memory of width*height*depth pixels, planar unless [interleave]. *)
Definition image_new (w h d : Z) (interleave : bool) : image :=
  let mem := replicate (Z.to_nat (w * h * d)) None in
  if interleave
  then mk_image w h d d (d * w) 1 mem
  else mk_image w h d 1 w (w * h) mem.

Definition pixel_index (img : image) (i j k : Z) : Z :=
  w_step img * i + h_step img * j + d_step img * k.

(** [img.at<double>(i, j, k)] as an rvalue. *)
Definition image_at (img : image) (i j k : Z) : outcome double :=
  buffer_read (first_pixel img) (pixel_index img i j k).

(** [img.at<double>(i, j) = v]. *)
Definition image_assign (img : image) (i j : Z) (v : double) : outcome image :=
  mem ← buffer_write (first_pixel img) (pixel_index img i j 0) v;
  Returned (mk_image (width img) (height img) (depth img)
                     (w_step img) (h_step img) (d_step img) mem).

(** [image_container_sptr]: a shared pointer, possibly null. *)
Definition image_container_sptr : Type := option image.

(** ** The VTK objects the tool touches (library types) *)

Record vtkDoubleArray : Type := mk_vtkDoubleArray {
  da_name : string;
  da_components : Z;
  da_values : buffer
}.

(** A data array of a field: only the double-precision ones can be viewed
    as [vtkDoubleArray]. *)
Inductive vtkDataArray : Type :=
| DoubleArray (a : vtkDoubleArray)
| FloatArray (name : string) (values : list double)
| UnsignedCharArray (name : string) (values : list Z).

Definition array_name (a : vtkDataArray) : string :=
  match a with
  | DoubleArray d => da_name d
  | FloatArray n _ => n
  | UnsignedCharArray n _ => n
  end.

Definition vtkFieldData : Type := list vtkDataArray.

(** [fd->GetArray(name)]: the first array of that name, or null. *)
Fixpoint GetArray (fd : vtkFieldData) (name : string) : option vtkDataArray :=
  match fd with
  | [] => None
  | a :: rest => if decide (array_name a = name) then Some a else GetArray rest name
  end.

(** [fd->AddArray(a)]: replaces the array of the same name, else appends. *)
Fixpoint AddArray (fd : vtkFieldData) (a : vtkDataArray) : vtkFieldData :=
  match fd with
  | [] => [a]
  | b :: rest =>
      if decide (array_name b = array_name a) then a :: rest else b :: AddArray rest a
  end.

(** [dynamic_cast<vtkDoubleArray *>(p)]. *)
Definition dynamic_cast_vtkDoubleArray (p : option vtkDataArray)
  : option vtkDoubleArray :=
  match p with
  | Some (DoubleArray d) => Some d
  | _ => None
  end.

(** [depths->GetValue(id)] through a possibly null pointer. *)
Definition GetValue (p : option vtkDoubleArray) (id : Z) : outcome double :=
  match p with
  | None => Undefined
  | Some a => buffer_read (da_values a) id
  end.

Definition vector_3d : Type := double * double * double.

Record vtkImageData : Type := mk_vtkImageData {
  id_origin : vector_3d;
  id_dimensions : Z * Z * Z;
  id_spacing : vector_3d;
  id_point_data : vtkFieldData;
  id_cell_data : vtkFieldData
}.

(** What [vtkXMLImageDataReader] produces for each file name after
    [Update()]; an unreadable file gives the empty image data. *)
Definition filesystem : Type := string → vtkImageData.

(** ** load_depth_map *)

Definition load_depth_map (disk : filesystem) (filename : string) : outcome image :=
  let img := disk filename in
  let depths := dynamic_cast_vtkDoubleArray (GetArray (id_point_data img) "Depths") in
  let '(dims0, dims1, dims2) := id_dimensions img in
  let depth0 := image_new dims0 dims1 dims2 false in
  st ← for_each
         (λ y st,
            for_each
              (λ x '(pt_id, depth),
                 v ← GetValue depths pt_id;
                 depth' ← image_assign depth x y v;
                 Returned (pt_id + 1, depth'))
              (seqZ 0 dims0) st)
         (reverse (seqZ 0 dims1)) (0, depth0);
  Returned (snd st).

(** ** volume_to_vtk *)

(** Conversion of a [size_t] to the [int] parameter of [SetDimensions]. *)
Definition to_int (z : Z) : Z := (z + 2 ^ 31) `mod` 2 ^ 32 - 2 ^ 31.

(** [for (unsigned int i = 0; i < bound; i++)] against a [size_t] bound: a
    bound of 2^32 or more is never reached by the counter, which wraps
    around, so the loop has no normal exit. *)
Definition for_unsigned {S : Type} (body : Z → S → outcome S) (bound : Z) (s : S)
  : outcome S :=
  if decide (bound < 2 ^ 32) then for_each body (seqZ 0 bound) s else Undefined.

(** A product computed in [size_t] wraps around at 2^64. *)
Definition to_size_t (z : Z) : Z := z `mod` 2 ^ 64.

(** Conversion of a [size_t] to the [vtkIdType] (a signed 64-bit integer)
    parameter of [SetNumberOfTuples]. *)
Definition to_vtkIdType (z : Z) : Z := (z + 2 ^ 63) `mod` 2 ^ 64 - 2 ^ 63.

(** [vals->SetNumberOfTuples(n)] on a fresh array; a negative number gives
    no tuple. *)
Definition SetNumberOfTuples (a : vtkDoubleArray) (n : Z) : vtkDoubleArray :=
  mk_vtkDoubleArray (da_name a) (da_components a)
                    (replicate (Z.to_nat (n * da_components a)) None).

(** [vals->SetTuple1(id, v)]. *)
Definition SetTuple1 (a : vtkDoubleArray) (id : Z) (v : double)
  : outcome vtkDoubleArray :=
  mem ← buffer_write (da_values a) id v;
  Returned (mk_vtkDoubleArray (da_name a) (da_components a) mem).

Record vtkStructuredGrid : Type := mk_vtkStructuredGrid {
  sg_dimensions : Z * Z * Z;
  sg_points : list vector_3d;
  sg_point_data : vtkFieldData;
  sg_cell_data : vtkFieldData
}.

Definition double_of_index (i : Z) : double := PrimFloat.of_uint63 (Uint63.of_Z i).

(** Position of the grid point of index [i] along one axis. *)
Definition axis_coordinate (o s : double) (i : Z) : double :=
  PrimFloat.add o (PrimFloat.mul (double_of_index i) s).

(** The [vtkImageDataToPointSet] filter: one explicit point per image
    point, x fastest, and the point and cell data passed through. *)
Definition vtkImageDataToPointSet (grid : vtkImageData) : vtkStructuredGrid :=
  let '(nx, ny, nz) := id_dimensions grid in
  let '(ox, oy, oz) := id_origin grid in
  let '(sx, sy, sz) := id_spacing grid in
  let points :=
    k ← seqZ 0 nz; j ← seqZ 0 ny; i ← seqZ 0 nx;
    [(axis_coordinate ox sx i, axis_coordinate oy sy j, axis_coordinate oz sz k)] in
  mk_vtkStructuredGrid (nx, ny, nz) points (id_point_data grid) (id_cell_data grid).

Definition fmin (a b : double) : double := if PrimFloat.ltb b a then b else a.
Definition fmax (a b : double) : double := if PrimFloat.ltb a b then b else a.

(** [GetBounds]: (xmin, xmax, ymin, ymax, zmin, zmax) over the points; the
    uninitialised box (1, -1, 1, -1, 1, -1) when there is none. *)
Definition GetBounds (g : vtkStructuredGrid)
  : double * double * double * double * double * double :=
  match sg_points g with
  | [] => (1, -1, 1, -1, 1, -1)%float
  | (x, y, z) :: rest =>
      foldl (λ '(x0, x1, y0, y1, z0, z1) '(px, py, pz),
               (fmin x0 px, fmax x1 px, fmin y0 py, fmax y1 py, fmin z0 pz, fmax z1 pz))
            (x, x, y, y, z, z) rest
  end.

(** [GetNumberOfCells] of a structured data set. *)
Definition GetNumberOfCells (g : vtkStructuredGrid) : Z :=
  let '(nx, ny, nz) := sg_dimensions g in
  if decide (nx ≤ 0 ∨ ny ≤ 0 ∨ nz ≤ 0) then 0
  else Z.max (nx - 1) 1 * Z.max (ny - 1) 1 * Z.max (nz - 1) 1.

(** The number of tuples is the product of the three dimensions as line 182
    computes it, in [size_t], converted to the [vtkIdType] parameter.  The
    counter [pt_id] starts at 0 and goes up by one per voxel; a write at or
    past the number of tuples, itself below 2^63, is undefined, so the
    counter meets the end of the array before it could leave the range of
    [vtkIdType]. *)
Definition volume_to_vtk (volume : image_container_sptr) (origin spacing : vector_3d)
  : outcome vtkStructuredGrid :=
  match volume with
  | None => Undefined
  | Some vol =>
      let grid :=
        mk_vtkImageData origin
          (to_int (width vol), to_int (height vol), to_int (depth vol))
          spacing [] [] in
      let vals :=
        SetNumberOfTuples (mk_vtkDoubleArray "reconstruction_scalar" 1 [])
          (to_vtkIdType (to_size_t (width vol * height vol * depth vol))) in
      st ← for_unsigned
             (λ k st,
                for_unsigned
                  (λ j st,
                     for_unsigned
                       (λ i '(pt_id, vals),
                          v ← image_at vol i j k;
                          vals' ← SetTuple1 vals pt_id v;
                          Returned (pt_id + 1, vals'))
                       (width vol) st)
                  (height vol) st)
             (depth vol) (0, vals);
      let grid' :=
        mk_vtkImageData (id_origin grid) (id_dimensions grid) (id_spacing grid)
          (id_point_data grid)
          (AddArray (id_cell_data grid) (DoubleArray (snd st))) in
      Returned (vtkImageDataToPointSet grid')
  end.

(** ** The tool and its host *)

Record camera_perspective : Type := mk_camera_perspective { camera_tag : Z }.

Inductive camera : Type :=
| PerspectiveCamera (c : camera_perspective)
| OtherCamera (tag : Z).

Definition camera_sptr : Type := option camera.
Definition camera_perspective_sptr : Type := option camera_perspective.

(** [std::dynamic_pointer_cast<camera_perspective>(p)]. *)
Definition dynamic_pointer_cast_camera_perspective (p : camera_sptr)
  : camera_perspective_sptr :=
  match p with
  | Some (PerspectiveCamera c) => Some c
  | _ => None
  end.

Definition frame_id_t : Type := Z.

(** [std::map<frame_id_t, std::string>], iterated in key order: the list
    of its entries, by strictly increasing frame id. *)
Definition depth_lookup : Type := list (frame_id_t * string).

Definition well_formed_lookup (depths : depth_lookup) : Prop :=
  StronglySorted Z.lt depths.*1.

(** The integration algorithm, an opaque capability returning the volume
    and its spacing through its two output parameters. *)
Record integrate_depth_maps : Type := mk_integrate_depth_maps {
  integrate :
    vector_3d → vector_3d →
    list image_container_sptr → list camera_perspective_sptr →
    image_container_sptr * vector_3d
}.

Definition integrate_depth_maps_sptr : Type := option integrate_depth_maps.

Record vtkBox : Type := mk_vtkBox { XMin : vector_3d; XMax : vector_3d }.

Record ToolData : Type := mk_ToolData {
  td_cameras : option (gmap frame_id_t camera_sptr);
  td_depthLookup : option depth_lookup;
  td_config : gmap string string;
  td_activeFrame : Z;
  td_roi : option vtkBox;
  (** Modelled from the spec: the cancellation signal of the host
      application (section 5), which lives in the tool's base class. *)
  td_cancelRequested : bool
}.

Record FuseDepthTool : Type := mk_FuseDepthTool {
  data : ToolData;
  fuse_algo : integrate_depth_maps_sptr
}.

(** What the tool reaches outside its own file: the configuration
    resources, the merge of the configuration library
    ([config_block::merge_config], called on a receiver with an argument),
    the algorithm registry of the [integrate_depth_maps] interface, the base
    class and the depth-map files. *)
Record Host : Type := mk_Host {
  readConfig : string → option (gmap string string);
  merge_config : gmap string string → gmap string string → gmap string string;
  check_nested_algo_configuration : string → gmap string string → bool;
  set_nested_algo_configuration :
    string → gmap string string → integrate_depth_maps_sptr → integrate_depth_maps_sptr;
  AbstractTool_execute : bool;
  disk : filesystem
}.

Definition BLOCK_IDM : string := "integrate_depth_maps".

(** Modelled from the spec: [AbstractTool::hasCameras] is not part of this
    file; section 4.3 requires "a non-empty camera set", absent or empty
    counting as missing. *)
Definition hasCameras (tool : FuseDepthTool) : bool :=
  match td_cameras (data tool) with
  | Some cams => negb (bool_decide (cams = ∅))
  | None => false
  end.

(** Modelled from the spec: [AbstractTool::hasDepthLookup] is not part of
    this file; section 4.3 requires "a non-empty depth-map lookup (keyed by
    frame id)", absent or empty counting as missing. *)
Definition hasDepthLookup (tool : FuseDepthTool) : bool :=
  match td_depthLookup (data tool) with
  | Some (_ :: _) => true
  | _ => false
  end.


(** What the user and the rest of the application observe of the tool. *)
Inductive event : Type :=
| QMessageBox_information (title text : string)
| QMessageBox_critical (title text : string)
| ReadConfig (name : string)
| CheckNestedAlgoConfiguration (block : string) (config : gmap string string)
| SetNestedAlgoConfiguration (block : string) (config : gmap string string)
| StartTool
| LoadDepthMap (frame : frame_id_t) (filename : string)
| Integrate (minpt maxpt : vector_3d)
            (depths : list image_container_sptr)
            (cameras : list camera_perspective_sptr)
| PrintCerr (minpt : vector_3d) (w : Z)
| UpdateFusion (grid : vtkStructuredGrid).

Record execute_result : Type := mk_execute_result {
  er_value : bool;
  er_tool : FuseDepthTool;
  er_trace : list event
}.

(** ** FuseDepthTool::execute *)

Definition execute (host : Host) (tool : FuseDepthTool) : execute_result :=
  if negb (hasCameras tool) || negb (hasDepthLookup tool)
  then
    mk_execute_result false tool
      [QMessageBox_information "Insufficient data"
         "This operation requires a video source, cameras, and landmarks"]
  else
    match readConfig host "gui_integrate_depth_maps.conf" with
    | None =>
        mk_execute_result false tool
          [ReadConfig "gui_integrate_depth_maps.conf";
           QMessageBox_critical "Configuration error"
             "No configuration data was found. Please check your installation."]
    | Some file_config =>
        let config := merge_config host file_config (td_config (data tool)) in
        if negb (check_nested_algo_configuration host BLOCK_IDM config)
        then
          mk_execute_result false tool
            [ReadConfig "gui_integrate_depth_maps.conf";
             CheckNestedAlgoConfiguration BLOCK_IDM config;
             QMessageBox_critical "Configuration error"
               "An error was found in the integrate_depth_maps configuration."]
        else
          let algo := set_nested_algo_configuration host BLOCK_IDM config (fuse_algo tool) in
          mk_execute_result (AbstractTool_execute host)
            (mk_FuseDepthTool (data tool) algo)
            [ReadConfig "gui_integrate_depth_maps.conf";
             CheckNestedAlgoConfiguration BLOCK_IDM config;
             SetNestedAlgoConfiguration BLOCK_IDM config;
             StartTool]
    end.

(** ** FuseDepthTool::run *)

(** Programs that log what they do: the trace so far is threaded through,
    and an undefined step ends the program, the trace up to it standing. *)
Definition prog (A : Type) : Type := list event → outcome A * list event.

#[global] Instance prog_ret : MRet prog := λ A a tr, (Returned a, tr).
#[global] Instance prog_bind : MBind prog :=
  λ A B f m tr,
    match m tr with
    | (Returned a, tr') => f a tr'
    | (Undefined, tr') => (Undefined, tr')
    end.

Definition emit (e : event) : prog unit := λ tr, (Returned tt, tr ++ [e]).

Definition lift {A : Type} (o : outcome A) : prog A := λ tr, (o, tr).

(** Dereference of a possibly null pointer. *)
Definition deref {A : Type} (p : option A) : prog A :=
  lift (match p with Some a => Returned a | None => Undefined end).

(** The loop over the depth-map lookup: [cameras.find] misses are skipped,
    hits append to both output vectors. *)
Fixpoint collect (host : Host) (cameras : gmap frame_id_t camera_sptr)
    (depths : depth_lookup)
    (out : list camera_perspective_sptr * list image_container_sptr)
  : prog (list camera_perspective_sptr * list image_container_sptr) :=
  match depths with
  | [] => mret out
  | (frame, filename) :: rest =>
      match cameras !! frame with
      | None => collect host cameras rest out
      | Some cam =>
          let '(cameras_out, depths_out) := out in
          emit (LoadDepthMap frame filename);;
          depth ← lift (load_depth_map (disk host) filename);
          collect host cameras rest
            (cameras_out ++ [dynamic_pointer_cast_camera_perspective cam],
             depths_out ++ [Some depth])
      end
  end.

Definition run_prog (host : Host) (tool : FuseDepthTool) : prog unit :=
  depths ← deref (td_depthLookup (data tool));
  cameras ← deref (td_cameras (data tool));
  '(cameras_out, depths_out) ← collect host cameras depths ([], []);
  roi ← deref (td_roi (data tool));
  let minpt := XMin roi in
  let maxpt := XMax roi in
  algo ← deref (fuse_algo tool);
  emit (Integrate minpt maxpt depths_out cameras_out);;
  let '(volume, spacing) := integrate algo minpt maxpt depths_out cameras_out in
  vtk_volume ← lift (volume_to_vtk volume minpt spacing);
  vol ← deref volume;
  emit (PrintCerr minpt (width vol));;
  emit (UpdateFusion vtk_volume).

(** One run, started from an empty log: how it ends and what it did. *)
Definition run (host : Host) (tool : FuseDepthTool) : outcome unit * list event :=
  run_prog host tool [].

(** ** Reading a file's values as a grid *)

(** [v[y][x]] of a grid given by its rows. *)
Definition grid_at (v : list (list double)) (y x : Z) : option double :=
  row ← lookupZ v y; lookupZ row x.

(** The rows are the [h] rows of [w] values each of a [w] by [h] grid. *)
Definition grid_shape (w h : Z) (v : list (list double)) : Prop :=
  Z.of_nat (length v) = h ∧ Forall (λ row, Z.of_nat (length row) = w) v.

(** The file holds a double-precision point-data array "Depths" whose
    values are the rows of [v], one after the other. *)
Definition holds_depths (file : vtkImageData) (v : list (list double)) : Prop :=
  ∃ a, GetArray (id_point_data file) "Depths" = Some (DoubleArray a)
       ∧ da_values a = Some <$> concat v.

(** The file has no point-data array "Depths" of double precision. *)
Definition lacks_depths (file : vtkImageData) : Prop :=
  dynamic_cast_vtkDoubleArray (GetArray (id_point_data file) "Depths") = None.

(** The file has a pixel to fill and no double-precision array "Depths":
    the load reads through the null pointer that the cast gives. *)
Definition null_depths (file : vtkImageData) : Prop :=
  lacks_depths file
  ∧ 0 < (id_dimensions file).1.1 ∧ 0 < (id_dimensions file).1.2.

(** An image laid out as the planar constructor leaves it. *)
Definition planar (w h d : Z) (img : image) : Prop :=
  width img = w ∧ height img = h ∧ depth img = d
  ∧ w_step img = 1 ∧ h_step img = w ∧ d_step img = w * h
  ∧ Z.of_nat (length (first_pixel img)) = w * h * d.

(** Every voxel of the image can be read. *)
Definition readable (vol : image) : Prop :=
  ∀ i j k, 0 ≤ i < width vol → 0 ≤ j < height vol → 0 ≤ k < depth vol →
    ∃ v, image_at vol i j k = Returned v.

(** Position of voxel (i, j, k) in the scalar array of a volume. *)
Definition linear_index (vol : image) (i j k : Z) : Z :=
  (k * height vol + j) * width vol + i.

(** State of the copy loop of [volume_to_vtk] once the first [p] tuples are
    written: the counter is [p], the array keeps its name and size, and every
    voxel whose position is below [p] has been copied to that position. *)
Definition scalars_upto (vol : image) (p : Z) (st : Z * vtkDoubleArray) : Prop :=
  st.1 = p
  ∧ da_name st.2 = "reconstruction_scalar"
  ∧ da_components st.2 = 1
  ∧ Z.of_nat (length (da_values st.2)) = width vol * height vol * depth vol
  ∧ ∀ i j k, 0 ≤ i < width vol → 0 ≤ j < height vol → 0 ≤ k < depth vol →
      linear_index vol i j k < p →
      buffer_read (da_values st.2) (linear_index vol i j k) = image_at vol i j k.

(** The inputs [execute] asks for are missing: the camera set or the
    depth-map lookup is absent or empty. *)
Definition missing_inputs (tool : FuseDepthTool) : Prop :=
  td_cameras (data tool) = None ∨ td_cameras (data tool) = Some ∅
  ∨ td_depthLookup (data tool) = None ∨ td_depthLookup (data tool) = Some [].

(** The configuration stage fails: the resource is not found, or the
    merged configuration does not pass the nested-algorithm check. *)
Definition configuration_fails (host : Host) (tool : FuseDepthTool) : Prop :=
  readConfig host "gui_integrate_depth_maps.conf" = None
  ∨ ∃ file_config,
      readConfig host "gui_integrate_depth_maps.conf" = Some file_config
      ∧ check_nested_algo_configuration host BLOCK_IDM
          (merge_config host file_config (td_config (data tool))) = false.

(** The frame ids of the depth-map lookup that also have a camera, in the
    order of the lookup. *)
Definition frames_in_both (cameras : gmap frame_id_t camera_sptr)
    (depths : depth_lookup) : list frame_id_t :=
  filter (λ frame, is_Some (cameras !! frame)) depths.*1.

(** Events that are work on the data: a depth-map load, a call of
    [integrate]. *)
Definition is_work (e : event) : Prop :=
  match e with
  | LoadDepthMap _ _ => True
  | Integrate _ _ _ _ => True
  | _ => False
  end.

(** Message boxes shown to the user. *)
Definition is_message (e : event) : Prop :=
  match e with
  | QMessageBox_information _ _ => True
  | QMessageBox_critical _ _ => True
  | _ => False
  end.

(** Loads of depth-map files. *)
Definition is_load (e : event) : Prop :=
  match e with
  | LoadDepthMap _ _ => True
  | _ => False
  end.

(** The entries of the depth-map lookup whose frame has a camera, in the
    order of the lookup. *)
Definition common_entries (cameras : gmap frame_id_t camera_sptr)
    (depths : depth_lookup) : depth_lookup :=
  filter (λ entry, is_Some (cameras !! entry.1)) depths.

(** The camera vector that the collecting loop builds: for each common
    entry, in order, the camera of its frame cast to a perspective camera. *)
Definition cameras_out_of (cameras : gmap frame_id_t camera_sptr)
    (depths : depth_lookup) : list camera_perspective_sptr :=
  (λ entry, match cameras !! entry.1 with
            | Some cam => dynamic_pointer_cast_camera_perspective cam
            | None => None
            end)
    <$> common_entries cameras depths.

(** The depth-map vector that the collecting loop builds: for each common
    entry, in order, the image loaded from its file. *)
Definition depths_out_of (files : filesystem) (cameras : gmap frame_id_t camera_sptr)
    (depths : depth_lookup) : list image_container_sptr :=
  (λ entry, match load_depth_map files entry.2 with
            | Returned img => Some img
            | Undefined => None
            end)
    <$> common_entries cameras depths.

(** The ways a run can end, by what follows its depth-map loads. *)
Inductive run_ending : outcome unit → list event → Prop :=
| ended_before_integrate : run_ending Undefined []
| ended_after_integrate (minpt maxpt : vector_3d)
    (ds : list image_container_sptr) (cs : list camera_perspective_sptr) :
    run_ending Undefined [Integrate minpt maxpt ds cs]
| ended_published (minpt maxpt : vector_3d)
    (ds : list image_container_sptr) (cs : list camera_perspective_sptr)
    (w : Z) (grid : vtkStructuredGrid) :
    run_ending (Returned tt)
      [Integrate minpt maxpt ds cs; PrintCerr minpt w; UpdateFusion grid].

(** The point of index (i, j, k) of a grid made from an image with the
    given origin and spacing. *)
Definition grid_point (origin spacing : vector_3d) (i j k : Z) : vector_3d :=
  (axis_coordinate origin.1.1 spacing.1.1 i,
   axis_coordinate origin.1.2 spacing.1.2 j,
   axis_coordinate origin.2 spacing.2 k).

(** ** Sample data *)

Definition sample_rows : list (list double) :=
  [[1; 2]; [3; 4]; [5; 6]]%float.

Definition sample_depth_file : vtkImageData :=
  mk_vtkImageData (0, 0, 0)%float (2, 3, 1) (1, 1, 1)%float
    [DoubleArray (mk_vtkDoubleArray "Depths" 1 (Some <$> concat sample_rows))] [].

Definition empty_file : vtkImageData :=
  mk_vtkImageData (0, 0, 0)%float (0, 0, 0) (1, 1, 1)%float [] [].

Definition single_precision_file : vtkImageData :=
  mk_vtkImageData (0, 0, 0)%float (2, 3, 1) (1, 1, 1)%float
    [FloatArray "Depths" (concat sample_rows)] [].

Definition sample_disk : filesystem :=
  λ name,
    if decide (name = "depth_1.vti") then sample_depth_file
    else if decide (name = "depth_3.vti") then sample_depth_file
    else if decide (name = "single.vti") then single_precision_file
    else empty_file.

Definition sample_volume : image :=
  mk_image 2 2 2 1 2 4 (Some <$> [10; 11; 12; 13; 14; 15; 16; 17]%float).

Definition sample_algo : integrate_depth_maps :=
  mk_integrate_depth_maps (λ _ _ _ _, (Some sample_volume, (1, 1, 1)%float)).

Definition sample_config : gmap string string :=
  {[ "integrate_depth_maps:type" := "cuda"; "ray_potential_rho" := "1.0" ]}.

Definition sample_ambient : gmap string string :=
  {[ "ray_potential_rho" := "2.5"; "video_source" := "clip.mp4" ]}.

(** A merge in which the values of the argument overwrite those of the
    receiver, and one in which the receiver keeps its own. *)
Definition overwriting_merge (receiver other : gmap string string)
  : gmap string string := other ∪ receiver.

Definition keeping_merge (receiver other : gmap string string)
  : gmap string string := receiver ∪ other.

Definition sample_host : Host :=
  mk_Host
    (λ name, if decide (name = "gui_integrate_depth_maps.conf")
             then Some sample_config else None)
    overwriting_merge
    (λ block config, bool_decide (is_Some (config !! (block +:+ ":type"))))
    (λ _ _ _, Some sample_algo)
    true
    sample_disk.

(** A host whose installation lacks the configuration resource. *)
Definition bare_host : Host :=
  mk_Host (λ _, None) overwriting_merge (λ _ _, true) (λ _ _ _, Some sample_algo)
    true sample_disk.

(** A host whose configuration resource does not name an algorithm. *)
Definition misconfigured_host : Host :=
  mk_Host (λ _, Some ∅) overwriting_merge
    (λ block config, bool_decide (is_Some (config !! (block +:+ ":type"))))
    (λ _ _ _, Some sample_algo) true sample_disk.

(** The sample host with a configuration library whose merge lets the
    receiver keep its values. *)
Definition keeping_host : Host :=
  mk_Host (readConfig sample_host) keeping_merge
    (check_nested_algo_configuration sample_host)
    (set_nested_algo_configuration sample_host) true sample_disk.

Definition sample_cameras : gmap frame_id_t camera_sptr :=
  {[ 1 := Some (PerspectiveCamera (mk_camera_perspective 101));
     2 := Some (PerspectiveCamera (mk_camera_perspective 102)) ]}.

Definition sample_lookup : depth_lookup :=
  [(1, "depth_1.vti"); (3, "depth_3.vti")].

Definition sample_roi : vtkBox := mk_vtkBox (0, 0, 0)%float (2, 2, 2)%float.

Definition sample_tool : FuseDepthTool :=
  mk_FuseDepthTool
    (mk_ToolData (Some sample_cameras) (Some sample_lookup) sample_ambient 1
                 (Some sample_roi) false)
    (Some sample_algo).

(** The same tool with the cancellation signal raised or lowered. *)
Definition with_cancel (b : bool) (tool : FuseDepthTool) : FuseDepthTool :=
  mk_FuseDepthTool
    (mk_ToolData (td_cameras (data tool)) (td_depthLookup (data tool))
                 (td_config (data tool)) (td_activeFrame (data tool))
                 (td_roi (data tool)) b)
    (fuse_algo tool).

(** A tool whose camera set is there but empty. *)
Definition tool_without_cameras : FuseDepthTool :=
  mk_FuseDepthTool
    (mk_ToolData (Some ∅) (Some sample_lookup) sample_ambient 1 (Some sample_roi) false)
    None.

(** A tool on which [execute] has not set an algorithm. *)
Definition tool_without_algo : FuseDepthTool :=
  mk_FuseDepthTool (data sample_tool) None.

(** A tool whose cameras and depth maps share no frame. *)
Definition disjoint_tool : FuseDepthTool :=
  mk_FuseDepthTool
    (mk_ToolData (Some {[ 2 := Some (PerspectiveCamera (mk_camera_perspective 102)) ]})
                 (Some sample_lookup) sample_ambient 1 (Some sample_roi) false)
    (Some sample_algo).

(** A tool whose second depth map is stored in single precision. *)
Definition tool_with_bad_file : FuseDepthTool :=
  mk_FuseDepthTool
    (mk_ToolData (Some sample_cameras)
                 (Some [(1, "depth_1.vti"); (2, "single.vti")])
                 sample_ambient 1 (Some sample_roi) false)
    (Some sample_algo).

(** A tool whose camera of frame 3 is not a perspective camera. *)
Definition tool_with_other_camera : FuseDepthTool :=
  mk_FuseDepthTool
    (mk_ToolData
       (Some {[ 1 := Some (PerspectiveCamera (mk_camera_perspective 101));
                3 := Some (OtherCamera 7) ]})
       (Some sample_lookup) sample_ambient 1 (Some sample_roi) false)
    (Some sample_algo).

(** A volume without slices. *)
Definition flat_volume : image := mk_image 2 3 0 1 2 6 [].

(** A file of two slices of 2 by 2 values. *)
Definition two_slice_file : vtkImageData :=
  mk_vtkImageData (0, 0, 0)%float (2, 2, 2) (1, 1, 1)%float
    [DoubleArray (mk_vtkDoubleArray "Depths" 1
                    (Some <$> [1; 2; 3; 4; 5; 6; 7; 8]%float))] [].

(** An algorithm that hands back no volume. *)
Definition null_algo : integrate_depth_maps :=
  mk_integrate_depth_maps (λ _ _ _ _, (None, (1, 1, 1)%float)).

Definition tool_with_null_algo : FuseDepthTool :=
  mk_FuseDepthTool (data sample_tool) (Some null_algo).

(** ** Statements put to the test *)

(** "[load_depth_map] is total only when the file has a double-precision
    array Depths": a load that returns implies the array is there. *)
Definition total_only_with_depths (disk : filesystem) (filename : string) : Prop :=
  (∃ img, load_depth_map disk filename = Returned img) → ¬ lacks_depths (disk filename).

(** "A cancelled run never loads a depth map nor calls integrate": with
    the signal raised, the run does no work on the data. *)
Definition respects_cancellation (host : Host) (tool : FuseDepthTool) : Prop :=
  td_cancelRequested (data tool) = true →
  ∀ e, e ∈ (run host tool).2 → ¬ is_work e.

(** * Properties *)

(** ** Loops *)

(** Invariant rule for counted loops: an invariant that every iteration
    re-establishes, without becoming undefined, holds when the loop ends,
    and the loop does end. *)
Lemma for_each_invariant {S : Type} (body : Z → S → outcome S)
    (P : nat → S → Prop) (idx : list Z) (s : S) :
  P 0%nat s →
  (∀ n i s0, idx !! n = Some i → P n s0 →
     ∃ s1, body i s0 = Returned s1 ∧ P (Datatypes.S n) s1) →
  ∃ s', for_each body idx s = Returned s' ∧ P (length idx) s'.
Proof.
  revert P s. induction idx as [|i rest IH]; intros P s H0 Hstep.
  - exists s. split; [reflexivity | exact H0].
  - destruct (Hstep 0%nat i s eq_refl H0) as (s1 & Hb & H1).
    destruct (IH (λ n, P (Datatypes.S n)) s1 H1) as (s' & Hl & Hp).
    + intros n j s0 Hn Hp. exact (Hstep (Datatypes.S n) j s0 Hn Hp).
    + exists s'. split; [|exact Hp].
      simpl. rewrite Hb. exact Hl.
Qed.

(** ** Raw memory *)

Lemma lookupZ_nonneg {A : Type} (l : list A) (i : Z) :
  0 ≤ i → lookupZ l i = l !! Z.to_nat i.
Proof. intros Hi. unfold lookupZ. by rewrite decide_True. Qed.

Lemma buffer_write_in_range (b : buffer) (i : Z) (v : double) :
  0 ≤ i < Z.of_nat (length b) →
  buffer_write b i v = Returned (<[Z.to_nat i := Some v]> b).
Proof. intros Hi. unfold buffer_write. by rewrite decide_True. Qed.

Lemma buffer_read_insert (b : buffer) (i j : Z) (v : double) :
  0 ≤ i < Z.of_nat (length b) → 0 ≤ j →
  buffer_read (<[Z.to_nat i := Some v]> b) j
  = if decide (j = i) then Returned v else buffer_read b j.
Proof.
  intros Hi Hj. unfold buffer_read, buffer in *. rewrite !lookupZ_nonneg by lia.
  case_decide as Hji.
  - subst j. rewrite list_lookup_insert_eq by lia. reflexivity.
  - rewrite list_lookup_insert_ne by lia. reflexivity.
Qed.

Lemma buffer_read_fmap_Some (l : list double) (i : Z) (v : double) :
  lookupZ l i = Some v → buffer_read (Some <$> l) i = Returned v.
Proof.
  unfold buffer_read, lookupZ. case_decide; [|discriminate].
  intros Hl. rewrite list_lookup_fmap, Hl. reflexivity.
Qed.

(** Row [r] of a grid of [w]-wide rows starts at position [r * w] of the
    concatenation of the rows. *)
Lemma concat_lookup_grid (w : nat) (v : list (list double)) (r x : nat) (row : list double) :
  Forall (λ row, length row = w) v →
  v !! r = Some row → (x < w)%nat →
  concat v !! (r * w + x)%nat = row !! x.
Proof.
  intros Hall. revert r. induction Hall as [|row0 rest Hlen Hrest IH]; intros r Hr Hx.
  - discriminate.
  - destruct r as [|r]; simpl in *.
    + injection Hr as ->. rewrite lookup_app_l by lia. reflexivity.
    + rewrite lookup_app_r by lia.
      replace (w + r * w + x - length row0)%nat with (r * w + x)%nat by lia.
      by apply IH.
Qed.

Lemma grid_at_concat (w h : Z) (v : list (list double)) (y x : Z) :
  grid_shape w h v → 0 ≤ x < w → 0 ≤ y < h →
  ∃ c, grid_at v y x = Some c ∧ lookupZ (concat v) (y * w + x) = Some c.
Proof.
  intros [Hh Hw] Hx Hy.
  destruct (lookup_lt_is_Some_2 v (Z.to_nat y)) as [row Hrow]; [lia|].
  assert (Z.of_nat (length row) = w) as Hlen.
  { eapply (proj1 (Forall_forall _ _) Hw), list_elem_of_lookup_2, Hrow. }
  destruct (lookup_lt_is_Some_2 row (Z.to_nat x)) as [c Hc]; [lia|].
  exists c. split.
  - unfold grid_at. rewrite lookupZ_nonneg by lia. rewrite Hrow. simpl.
    rewrite lookupZ_nonneg by lia. exact Hc.
  - rewrite lookupZ_nonneg by nia.
    replace (Z.to_nat (y * w + x)) with (Z.to_nat y * Z.to_nat w + Z.to_nat x)%nat by nia.
    rewrite (concat_lookup_grid (Z.to_nat w) v _ _ row); [exact Hc| |exact Hrow|lia].
    eapply Forall_impl; [exact Hw|]. simpl. intros; lia.
Qed.

(** ** Planar images *)

Lemma image_new_planar (w h d : Z) :
  0 ≤ w * h * d → planar w h d (image_new w h d false).
Proof.
  intros Hn. unfold planar, image_new. simpl.
  rewrite length_replicate. repeat split; lia.
Qed.

(** An assignment inside a planar image succeeds, keeps the layout and
    changes the pixel assigned to and no other. *)
Lemma image_assign_planar (w h d : Z) (img : image) (x y : Z) (v : double) :
  planar w h d img → 0 ≤ x < w → 0 ≤ y < h → 1 ≤ d →
  ∃ img', image_assign img x y v = Returned img' ∧ planar w h d img'
    ∧ ∀ x' y', 0 ≤ x' < w → 0 ≤ y' < h →
        image_at img' x' y' 0
        = if decide (x' = x ∧ y' = y) then Returned v else image_at img x' y' 0.
Proof.
  intros (Hw & Hh & Hd & Hws & Hhs & Hds & Hlen) Hx Hy Hd1.
  assert (0 ≤ pixel_index img x y 0 < Z.of_nat (length (first_pixel img))) as Hin.
  { unfold pixel_index. rewrite Hws, Hhs, Hds, Hlen.
    assert (0 ≤ w * y ≤ w * (h - 1)) by nia.
    assert (w * h * 1 ≤ w * h * d) by (apply Z.mul_le_mono_nonneg_l; nia).
    lia. }
  eexists. split; [|split].
  - unfold image_assign. rewrite buffer_write_in_range by exact Hin. reflexivity.
  - unfold planar. simpl. unfold buffer in *. rewrite length_insert. done.
  - intros x' y' Hx' Hy'. unfold image_at at 1. simpl.
    assert (pixel_index
              (mk_image (width img) (height img) (depth img) (w_step img)
                 (h_step img) (d_step img)
                 (<[Z.to_nat (pixel_index img x y 0) := Some v]> (first_pixel img)))
              x' y' 0 = pixel_index img x' y' 0) as -> by reflexivity.
    rewrite buffer_read_insert; [|exact Hin|unfold pixel_index; rewrite Hws, Hhs, Hds; nia].
    unfold pixel_index in *. rewrite Hws, Hhs, Hds in *.
    destruct (decide (x' = x ∧ y' = y)) as [[-> ->]|Hne].
    + rewrite decide_True by reflexivity. reflexivity.
    + rewrite decide_False;
        [unfold image_at, pixel_index; rewrite Hws, Hhs, Hds; reflexivity|].
      intros Heq. apply Hne.
      assert (y' = y) as -> by nia. split; [lia|reflexivity].
Qed.

(** ** load_depth_map *)

(** One pass of the inner loop fills row [y] from the [w] values that
    start at [p0] and leaves the other rows alone. *)
Lemma load_depth_map_row (depths : option vtkDoubleArray) (w h d y p0 : Z)
    (img0 : image) :
  0 ≤ w → 1 ≤ d → 0 ≤ y < h → planar w h d img0 →
  (∀ x, 0 ≤ x < w → ∃ c, GetValue depths (p0 + x) = Returned c) →
  ∃ img,
    for_each
      (λ x '(pt_id, depth),
         v ← GetValue depths pt_id;
         depth' ← image_assign depth x y v;
         Returned (pt_id + 1, depth'))
      (seqZ 0 w) (p0, img0) = Returned (p0 + w, img)
    ∧ planar w h d img
    ∧ ∀ x' y', 0 ≤ x' < w → 0 ≤ y' < h →
        image_at img x' y' 0
        = if decide (y' = y) then GetValue depths (p0 + x') else image_at img0 x' y' 0.
Proof.
  intros Hw Hd Hy Hpl Hvals.
  edestruct (for_each_invariant
    (λ x '(pt_id, depth),
         v ← GetValue depths pt_id;
         depth' ← image_assign depth x y v;
         Returned (pt_id + 1, depth'))
    (λ n st, st.1 = p0 + Z.of_nat n ∧ planar w h d st.2
       ∧ ∀ x' y', 0 ≤ x' < w → 0 ≤ y' < h →
           image_at st.2 x' y' 0
           = if decide (y' = y ∧ x' < Z.of_nat n)
             then GetValue depths (p0 + x') else image_at img0 x' y' 0)
    (seqZ 0 w) (p0, img0)) as ([pt img] & Hrun & Hpt & Hpl' & Hat).
  - simpl. split; [lia|]. split; [exact Hpl|].
    intros x' y' Hx' Hy'. rewrite decide_False by lia. reflexivity.
  - intros n i [pt img] Hi (Hpt & Hpl' & Hat). simpl in Hpt, Hpl', Hat.
    apply lookup_seqZ in Hi as [-> Hn].
    destruct (Hvals (Z.of_nat n)) as [c Hc]; [lia|].
    destruct (image_assign_planar w h d img (0 + Z.of_nat n) y c Hpl')
      as (img' & Has & Hpl'' & Hat'); [lia|lia|lia|].
    exists (pt + 1, img'). split.
    + simpl. rewrite Hpt, Hc. simpl. rewrite Has. reflexivity.
    + simpl. split; [lia|]. split; [exact Hpl''|].
      intros x' y' Hx' Hy'. rewrite Hat' by assumption.
      destruct (decide (x' = 0 + Z.of_nat n ∧ y' = y)) as [[-> ->]|Hne].
      * rewrite decide_True by lia. rewrite <- Hc. f_equal; lia.
      * rewrite Hat by assumption.
        destruct (decide (y' = y ∧ x' < Z.of_nat n)) as [[-> Hlt]|Hne'].
        -- rewrite decide_True by lia. reflexivity.
        -- rewrite decide_False by lia. reflexivity.
  - rewrite length_seqZ in *. simpl in Hpt, Hpl', Hat.
    exists img. split; [|split].
    + rewrite Hrun. f_equal. f_equal. lia.
    + exact Hpl'.
    + intros x' y' Hx' Hy'. rewrite Hat by assumption.
      destruct (decide (y' = y)) as [->|Hne].
      * rewrite decide_True by lia. reflexivity.
      * rewrite decide_False by lia. reflexivity.
Qed.

Lemma grid_shape_width (w h : Z) (v : list (list double)) :
  grid_shape w h v → 0 ≤ h ∧ (0 < h → 0 ≤ w).
Proof.
  intros [Hh Hw]. split; [lia|]. intros Hpos.
  destruct v as [|row rest]; [simpl in Hh; lia|].
  apply Forall_cons in Hw as [Hrow _]. lia.
Qed.

(** The whole double loop: every pixel (x, y) of the result holds the value
    that the file's array has at row [h - 1 - y], column [x]. *)
Lemma load_depth_map_grid (disk : filesystem) (filename : string) (w h d : Z)
    (v : list (list double)) :
  id_dimensions (disk filename) = (w, h, d) → 1 ≤ d →
  holds_depths (disk filename) v → grid_shape w h v →
  ∃ depth,
    load_depth_map disk filename = Returned depth
    ∧ planar w h d depth
    ∧ ∀ x y, 0 ≤ x < w → 0 ≤ y < h →
        ∃ c, grid_at v (h - 1 - y) x = Some c ∧ image_at depth x y 0 = Returned c.
Proof.
  intros Hdims Hd (a & Harr & Hvals) Hshape.
  destruct (grid_shape_width w h v Hshape) as [Hh Hw].
  unfold load_depth_map. rewrite Hdims, Harr. simpl.
  set (depths := Some a).
  assert (∀ x y, 0 ≤ x < w → 0 ≤ y < h →
            ∃ c, grid_at v y x = Some c ∧ GetValue depths (y * w + x) = Returned c)
    as Hfile.
  { intros x y Hx Hy.
    destruct (grid_at_concat w h v y x Hshape Hx Hy) as (c & Hg & Hc).
    exists c. split; [exact Hg|]. simpl. rewrite Hvals.
    by apply buffer_read_fmap_Some. }
  edestruct (for_each_invariant
    (λ y st,
       for_each
         (λ x '(pt_id, depth),
            v ← GetValue depths pt_id;
            depth' ← image_assign depth x y v;
            Returned (pt_id + 1, depth'))
         (seqZ 0 w) st)
    (λ n st, st.1 = Z.of_nat n * w ∧ planar w h d st.2
       ∧ ∀ x' y', 0 ≤ x' < w → 0 ≤ y' < h → h - Z.of_nat n ≤ y' →
           image_at st.2 x' y' 0 = GetValue depths ((h - 1 - y') * w + x'))
    (reverse (seqZ 0 h)) (0, image_new w h d false))
    as ([pt img] & Hrun & Hpt & Hpl & Hat).
  - simpl. split; [lia|]. split; [|intros; lia].
    apply image_new_planar.
    destruct (decide (h = 0)) as [->|Hne]; [lia|].
    assert (0 ≤ w * h) by (apply Z.mul_nonneg_nonneg; lia).
    apply Z.mul_nonneg_nonneg; lia.
  - intros n y [pt img] Hy (Hpt & Hpl & Hat). simpl in Hpt, Hpl, Hat.
    apply reverse_lookup_Some in Hy as [Hy Hn].
    rewrite length_seqZ in Hy, Hn.
    apply lookup_seqZ in Hy as [-> _].
    replace (0 + Z.of_nat (Z.to_nat h - Datatypes.S n)) with (h - 1 - Z.of_nat n) by lia.
    destruct (load_depth_map_row depths w h d (h - 1 - Z.of_nat n) pt img)
      as (img' & Hrow & Hpl' & Hat'); [lia|lia|lia|exact Hpl| |].
    { intros x Hx. destruct (Hfile x (Z.of_nat n)) as (c & _ & Hc); [lia|lia|].
      exists c. rewrite Hpt. exact Hc. }
    exists (pt + w, img'). split; [exact Hrow|]. simpl.
    split; [lia|]. split; [exact Hpl'|].
    intros x' y' Hx' Hy' Hge. rewrite Hat' by assumption.
    case_decide as Hrowy.
    + subst y' pt. f_equal. lia.
    + apply Hat; [assumption|assumption|lia].
  - simpl in Hpt, Hpl, Hat. exists img. split; [|split].
    + match type of Hrun with
      | ?loop = _ => change (loop ≫= (λ st : Z * image, Returned st.2) = Returned img)
      end.
      rewrite Hrun. reflexivity.
    + exact Hpl.
    + intros x y Hx Hy.
      destruct (Hfile x (h - 1 - y)) as (c & Hg & Hc); [lia|lia|].
      exists c. split; [exact Hg|].
      rewrite Hat; [exact Hc|assumption|assumption|].
      rewrite length_reverse, length_seqZ. lia.
Qed.

(** C2: for a depth-map file of width [w] and height [h] whose point-data
    array "Depths" holds the values [v[y][x]] row after row, [load_depth_map]
    returns a [w] by [h] image with [depth.at(x, y) = v[h - 1 - y][x]] for
    every [0 <= x < w] and [0 <= y < h]: the rows are inverted and the
    columns kept. *)
Theorem load_depth_map_inverts_rows (disk : filesystem) (filename : string)
    (w h d : Z) (v : list (list double)) :
  id_dimensions (disk filename) = (w, h, d) → 1 ≤ d →
  holds_depths (disk filename) v → grid_shape w h v →
  ∃ depth,
    load_depth_map disk filename = Returned depth
    ∧ width depth = w ∧ height depth = h
    ∧ ∀ x y, 0 ≤ x < w → 0 ≤ y < h →
        ∃ c, grid_at v (h - 1 - y) x = Some c ∧ image_at depth x y 0 = Returned c.
Proof.
  intros Hdims Hd Harr Hshape.
  destruct (load_depth_map_grid disk filename w h d v Hdims Hd Harr Hshape)
    as (depth & Hload & Hpl & Hat).
  exists depth. destruct Hpl as (Hw & Hh & _). done.
Qed.

Lemma load_depth_map_inverts_rows_witness :
  ∃ depth,
    load_depth_map sample_disk "depth_1.vti" = Returned depth
    ∧ width depth = 2 ∧ height depth = 3
    ∧ ∀ x y, 0 ≤ x < 2 → 0 ≤ y < 3 →
        ∃ c, grid_at sample_rows (3 - 1 - y) x = Some c
             ∧ image_at depth x y 0 = Returned c.
Proof.
  apply (load_depth_map_inverts_rows sample_disk "depth_1.vti" 2 3 1 sample_rows).
  - reflexivity.
  - lia.
  - eexists. split; reflexivity.
  - split; [reflexivity | repeat constructor].
Defined.

(** The 2 by 3 sample grid, rows 1 2 / 3 4 / 5 6 in the file, comes out
    with the last file row as image row 0. *)
Example load_depth_map_sample :
  ∃ depth,
    load_depth_map sample_disk "depth_1.vti" = Returned depth
    ∧ image_at depth 0 0 0 = Returned 5%float
    ∧ image_at depth 1 0 0 = Returned 6%float
    ∧ image_at depth 0 1 0 = Returned 3%float
    ∧ image_at depth 1 1 0 = Returned 4%float
    ∧ image_at depth 0 2 0 = Returned 1%float
    ∧ image_at depth 1 2 0 = Returned 2%float.
Proof. eexists. repeat split; reflexivity. Qed.

Lemma for_each_skip {S : Type} (body : Z → S → outcome S) (idx : list Z) (s : S) :
  (∀ i s0, body i s0 = Returned s0) → for_each body idx s = Returned s.
Proof.
  intros Hbody. induction idx as [|i rest IH]; [reflexivity|].
  simpl. rewrite Hbody. exact IH.
Qed.

(** Without a double-precision array "Depths" the reads go through a null
    pointer: the load is undefined as soon as there is a pixel to fill, and
    returns the untouched, empty image when the grid has none. *)
Lemma load_depth_map_null (disk : filesystem) (filename : string) (w h d : Z) :
  id_dimensions (disk filename) = (w, h, d) → lacks_depths (disk filename) →
  load_depth_map disk filename
  = if decide (0 < w ∧ 0 < h) then Undefined else Returned (image_new w h d false).
Proof.
  intros Hdims Hnull. unfold lacks_depths in Hnull.
  unfold load_depth_map. rewrite Hdims, Hnull.
  case_decide as Hwh.
  - destruct Hwh as [Hw Hh].
    replace h with (Z.of_nat (Datatypes.S (Z.to_nat (h - 1)))) by lia.
    rewrite seqZ_S, reverse_snoc.
    rewrite (seqZ_cons 0 w) by lia. reflexivity.
  - destruct (decide (0 < h)) as [Hh|Hh].
    + assert (seqZ 0 w = []) as -> by (apply seqZ_nil; lia).
      rewrite for_each_skip; [reflexivity|]. intros; reflexivity.
    + assert (seqZ 0 h = []) as -> by (apply seqZ_nil; lia). reflexivity.
Qed.

(** In a planar image of one slice whose pixels (x, y) can all be read,
    every cell of the memory has been written. *)
Lemma planar_slice_populated (w h : Z) (img : image) :
  0 ≤ h → (0 < h → 0 ≤ w) → planar w h 1 img →
  (∀ x y, 0 ≤ x < w → 0 ≤ y < h → ∃ c, image_at img x y 0 = Returned c) →
  Forall is_Some (first_pixel img).
Proof.
  intros Hh0 Hw0 (Hw & Hh & Hd & Hws & Hhs & Hds & Hlen) Hat.
  apply Forall_lookup. intros n cell Hcell.
  pose proof (lookup_lt_Some _ _ _ Hcell) as Hn.
  assert (0 < h) as Hhpos
    by (destruct (decide (h = 0)) as [Hz|]; [rewrite Hz in Hlen; lia|lia]).
  assert (0 < w) as Hwpos
    by (destruct (decide (w = 0)) as [Hz|]; [rewrite Hz in Hlen; lia|];
        specialize (Hw0 Hhpos); lia).
  destruct (Hat (Z.of_nat n `mod` w) (Z.of_nat n / w)) as [c Hc].
  { apply Z.mod_pos_bound. exact Hwpos. }
  { split; [apply Z.div_pos; lia|]. apply Z.div_lt_upper_bound; nia. }
  unfold image_at, pixel_index, buffer_read in Hc. rewrite Hws, Hhs, Hds in Hc.
  replace (1 * (Z.of_nat n `mod` w) + w * (Z.of_nat n / w) + w * h * 0)
    with (Z.of_nat n) in Hc by (rewrite (Z.div_mod (Z.of_nat n) w) at 1; lia).
  rewrite lookupZ_nonneg, Nat2Z.id in Hc by lia.
  unfold buffer in *. rewrite Hcell in Hc.
  destruct cell as [v|]; [by exists v|discriminate].
Qed.

(** C8 (as amended): for a file of one slice (third dimension 1) with a
    double-precision array "Depths" holding its width by height values,
    [load_depth_map] returns an image that is fully populated: every pixel
    can be read and every cell of its memory has been written.  When the
    array is absent or of another element type the cast is null and there is
    no decode error to report: the load is undefined when the grid has at
    least one pixel, and returns the empty, untouched image when it has
    none. *)
Theorem load_depth_map_totality (disk : filesystem) (filename : string) (w h d : Z) :
  id_dimensions (disk filename) = (w, h, d) →
  (∀ v, d = 1 → holds_depths (disk filename) v → grid_shape w h v →
     ∃ img,
       load_depth_map disk filename = Returned img
       ∧ width img = w ∧ height img = h ∧ depth img = 1
       ∧ (∀ x y k, 0 ≤ x < width img → 0 ≤ y < height img → 0 ≤ k < depth img →
            ∃ c, image_at img x y k = Returned c)
       ∧ Forall is_Some (first_pixel img))
  ∧ (lacks_depths (disk filename) →
     load_depth_map disk filename
     = if decide (0 < w ∧ 0 < h) then Undefined else Returned (image_new w h d false)).
Proof.
  intros Hdims. split.
  - intros v -> Harr Hshape.
    destruct (load_depth_map_grid disk filename w h 1 v Hdims) as
      (img & Hload & Hpl & Hat); [lia|exact Harr|exact Hshape|].
    assert (∀ x y, 0 ≤ x < w → 0 ≤ y < h → ∃ c, image_at img x y 0 = Returned c)
      as Hread.
    { intros x y Hx Hy. destruct (Hat x y Hx Hy) as (c & _ & Hc). by exists c. }
    exists img. pose proof Hpl as (Hw & Hh & Hd & _).
    split; [exact Hload|]. split; [exact Hw|]. split; [exact Hh|]. split; [exact Hd|].
    split; [|by apply (planar_slice_populated w h);
                 [apply (grid_shape_width w h v)|apply (grid_shape_width w h v)| |]].
    rewrite Hw, Hh, Hd. intros x y k Hx Hy Hk.
    replace k with 0 by lia. by apply Hread.
  - intros Hnull. by apply load_depth_map_null.
Qed.

Lemma load_depth_map_totality_witness :
  (∃ img,
     load_depth_map sample_disk "depth_1.vti" = Returned img
     ∧ width img = 2 ∧ height img = 3 ∧ depth img = 1
     ∧ (∀ x y k, 0 ≤ x < width img → 0 ≤ y < height img → 0 ≤ k < depth img →
          ∃ c, image_at img x y k = Returned c)
     ∧ Forall is_Some (first_pixel img))
  ∧ load_depth_map sample_disk "single.vti" = Undefined
  ∧ load_depth_map sample_disk "missing.vti" = Returned (image_new 0 0 0 false).
Proof.
  split; [|split].
  - apply (proj1 (load_depth_map_totality sample_disk "depth_1.vti" 2 3 1 eq_refl)
             sample_rows).
    + reflexivity.
    + eexists. split; reflexivity.
    + split; [reflexivity | repeat constructor].
  - apply (proj2 (load_depth_map_totality sample_disk "single.vti" 2 3 1 eq_refl)).
    reflexivity.
  - apply (proj2 (load_depth_map_totality sample_disk "missing.vti" 0 0 0 eq_refl)).
    reflexivity.
Defined.

(** C8 (as stated) fails: an unreadable file gives a grid without points
    and without arrays, and the load returns although "Depths" is absent. *)
Lemma load_depth_map_total_without_depths :
  ¬ total_only_with_depths sample_disk "missing.vti".
Proof.
  unfold total_only_with_depths. intros Hclaim. apply Hclaim.
  - eexists. reflexivity.
  - reflexivity.
Qed.

(** ** volume_to_vtk *)

Lemma linear_index_range (vol : image) (i j k : Z) :
  0 ≤ i < width vol → 0 ≤ j < height vol → 0 ≤ k < depth vol →
  0 ≤ linear_index vol i j k < width vol * height vol * depth vol.
Proof.
  intros Hi Hj Hk. unfold linear_index.
  assert (0 ≤ k * height vol + j ≤ depth vol * height vol - 1) by nia.
  assert ((k * height vol + j) * width vol
          ≤ (depth vol * height vol - 1) * width vol)
    by (apply Z.mul_le_mono_nonneg_r; lia).
  nia.
Qed.

Lemma linear_index_inj (vol : image) (i j k i' j' k' : Z) :
  0 ≤ i < width vol → 0 ≤ j < height vol →
  0 ≤ i' < width vol → 0 ≤ j' < height vol →
  linear_index vol i j k = linear_index vol i' j' k' →
  i = i' ∧ j = j' ∧ k = k'.
Proof.
  unfold linear_index. intros Hi Hj Hi' Hj' Heq.
  assert (k * height vol + j = k' * height vol + j') as Hrow by nia.
  assert (k = k') as -> by nia. lia.
Qed.

(** The innermost loop copies row [j] of slice [k]. *)
Lemma volume_to_vtk_row (vol : image) (j k : Z) (st : Z * vtkDoubleArray) :
  0 ≤ width vol < 2 ^ 32 → readable vol →
  0 ≤ j < height vol → 0 ≤ k < depth vol →
  scalars_upto vol (linear_index vol 0 j k) st →
  ∃ st',
    for_unsigned
      (λ i '(pt_id, vals),
         v ← image_at vol i j k;
         vals' ← SetTuple1 vals pt_id v;
         Returned (pt_id + 1, vals'))
      (width vol) st = Returned st'
    ∧ scalars_upto vol (linear_index vol 0 j k + width vol) st'.
Proof.
  intros Hw Hread Hj Hk Hst.
  unfold for_unsigned. rewrite decide_True by lia.
  edestruct (for_each_invariant
    (λ i '(pt_id, vals),
         v ← image_at vol i j k;
         vals' ← SetTuple1 vals pt_id v;
         Returned (pt_id + 1, vals'))
    (λ n, scalars_upto vol (linear_index vol 0 j k + Z.of_nat n))
    (seqZ 0 (width vol)) st) as (st' & Hrun & Hst').
  - replace (linear_index vol 0 j k + Z.of_nat 0) with (linear_index vol 0 j k) by lia.
    exact Hst.
  - intros n i [pt vals] Hi (Hpt & Hname & Hcomp & Hlen & Hcopy).
    simpl in Hpt, Hname, Hcomp, Hlen, Hcopy.
    apply lookup_seqZ in Hi as [-> Hn]. simpl.
    destruct (Hread (Z.of_nat n) j k) as [v Hv]; [lia|lia|lia|].
    assert (linear_index vol (Z.of_nat n) j k = pt) as Hpos
      by (unfold linear_index in *; lia).
    pose proof (linear_index_range vol (Z.of_nat n) j k) as Hrange.
    rewrite Hpos in Hrange.
    replace (0 + Z.of_nat n) with (Z.of_nat n) by lia.
    rewrite Hv. simpl. unfold SetTuple1.
    rewrite buffer_write_in_range by (rewrite Hlen; apply Hrange; lia). simpl.
    eexists. split; [reflexivity|].
    unfold scalars_upto. simpl. repeat split; try done.
    + lia.
    + unfold buffer in *. rewrite length_insert. exact Hlen.
    + intros i' j' k' Hi' Hj' Hk' Hlt.
      pose proof (linear_index_range vol i' j' k' Hi' Hj' Hk') as Hrange'.
      rewrite buffer_read_insert; [|rewrite Hlen; apply Hrange; lia|lia].
      case_decide as Hsame.
      * rewrite <- Hpos in Hsame.
        apply linear_index_inj in Hsame as (-> & -> & ->); [|lia..].
        symmetry. exact Hv.
      * apply Hcopy; [assumption..|lia].
  - exists st'. split; [exact Hrun|].
    rewrite length_seqZ in Hst'.
    replace (Z.of_nat (Z.to_nat (width vol))) with (width vol) in Hst' by lia.
    exact Hst'.
Qed.

(** The middle loop copies slice [k], row after row. *)
Lemma volume_to_vtk_slice (vol : image) (k : Z) (st : Z * vtkDoubleArray) :
  0 ≤ width vol < 2 ^ 32 → 0 ≤ height vol < 2 ^ 32 → readable vol →
  0 ≤ k < depth vol →
  scalars_upto vol (linear_index vol 0 0 k) st →
  ∃ st',
    for_unsigned
      (λ j st,
         for_unsigned
           (λ i '(pt_id, vals),
              v ← image_at vol i j k;
              vals' ← SetTuple1 vals pt_id v;
              Returned (pt_id + 1, vals'))
           (width vol) st)
      (height vol) st = Returned st'
    ∧ scalars_upto vol (linear_index vol 0 0 (k + 1)) st'.
Proof.
  intros Hw Hh Hread Hk Hst.
  unfold for_unsigned at 1. rewrite decide_True by lia.
  edestruct (for_each_invariant
    (λ j st,
         for_unsigned
           (λ i '(pt_id, vals),
              v ← image_at vol i j k;
              vals' ← SetTuple1 vals pt_id v;
              Returned (pt_id + 1, vals'))
           (width vol) st)
    (λ n, scalars_upto vol (linear_index vol 0 (Z.of_nat n) k))
    (seqZ 0 (height vol)) st) as (st' & Hrun & Hst').
  - exact Hst.
  - intros n j st0 Hj Hst0. apply lookup_seqZ in Hj as [-> Hn].
    replace (0 + Z.of_nat n) with (Z.of_nat n) by lia.
    destruct (volume_to_vtk_row vol (Z.of_nat n) k st0 Hw Hread) as (st1 & Hrow & Hst1);
      [lia|exact Hk|exact Hst0|].
    exists st1. split; [exact Hrow|].
    replace (linear_index vol 0 (Z.of_nat (Datatypes.S n)) k)
      with (linear_index vol 0 (Z.of_nat n) k + width vol)
      by (unfold linear_index; rewrite Nat2Z.inj_succ; ring).
    exact Hst1.
  - exists st'. split; [exact Hrun|].
    rewrite length_seqZ in Hst'.
    replace (linear_index vol 0 0 (k + 1))
      with (linear_index vol 0 (Z.of_nat (Z.to_nat (height vol))) k)
      by (unfold linear_index; rewrite Z2Nat.id by lia; ring).
    exact Hst'.
Qed.

(** A number of tuples below 2^63 goes through the [size_t] product and the
    conversion to [vtkIdType] unchanged. *)
Lemma tuple_count_fits (n : Z) : 0 ≤ n < 2 ^ 63 → to_vtkIdType (to_size_t n) = n.
Proof.
  intros Hn. unfold to_vtkIdType, to_size_t.
  rewrite (Z.mod_small n) by lia. rewrite Z.mod_small by lia. lia.
Qed.

(** The three loops together copy every voxel to its linear position. *)
Lemma volume_to_vtk_copy (vol : image) :
  0 ≤ width vol < 2 ^ 32 → 0 ≤ height vol < 2 ^ 32 → 0 ≤ depth vol < 2 ^ 32 →
  width vol * height vol * depth vol < 2 ^ 63 →
  readable vol →
  ∃ st',
    for_unsigned
      (λ k st,
         for_unsigned
           (λ j st,
              for_unsigned
                (λ i '(pt_id, vals),
                   v ← image_at vol i j k;
                   vals' ← SetTuple1 vals pt_id v;
                   Returned (pt_id + 1, vals'))
                (width vol) st)
           (height vol) st)
      (depth vol)
      (0, SetNumberOfTuples (mk_vtkDoubleArray "reconstruction_scalar" 1 [])
            (to_vtkIdType (to_size_t (width vol * height vol * depth vol))))
      = Returned st'
    ∧ scalars_upto vol (width vol * height vol * depth vol) st'.
Proof.
  intros Hw Hh Hd Hfit Hread.
  assert (0 ≤ width vol * height vol * depth vol) as Hnonneg.
  { assert (0 ≤ width vol * height vol) by (apply Z.mul_nonneg_nonneg; lia).
    apply Z.mul_nonneg_nonneg; lia. }
  rewrite (tuple_count_fits _ (conj Hnonneg Hfit)).
  unfold for_unsigned at 1. rewrite decide_True by lia.
  edestruct (for_each_invariant
    (λ k st,
         for_unsigned
           (λ j st,
              for_unsigned
                (λ i '(pt_id, vals),
                   v ← image_at vol i j k;
                   vals' ← SetTuple1 vals pt_id v;
                   Returned (pt_id + 1, vals'))
                (width vol) st)
           (height vol) st)
    (λ n, scalars_upto vol (linear_index vol 0 0 (Z.of_nat n)))
    (seqZ 0 (depth vol))
    (0, SetNumberOfTuples (mk_vtkDoubleArray "reconstruction_scalar" 1 [])
          (width vol * height vol * depth vol))) as (st' & Hrun & Hst').
  - unfold scalars_upto, SetNumberOfTuples. simpl.
    rewrite length_replicate. repeat split; try done.
    + assert (0 ≤ width vol * height vol) by (apply Z.mul_nonneg_nonneg; lia).
      assert (0 ≤ width vol * height vol * depth vol)
        by (apply Z.mul_nonneg_nonneg; lia).
      lia.
    + intros i j k Hi Hj Hk Hlt.
      pose proof (linear_index_range vol i j k Hi Hj Hk).
      unfold linear_index in *. lia.
  - intros n k st0 Hk Hst0. apply lookup_seqZ in Hk as [-> Hn].
    replace (0 + Z.of_nat n) with (Z.of_nat n) by lia.
    destruct (volume_to_vtk_slice vol (Z.of_nat n) st0 Hw Hh Hread) as (st1 & Hsl & Hst1);
      [lia|exact Hst0|].
    exists st1. split; [exact Hsl|].
    replace (Z.of_nat (Datatypes.S n)) with (Z.of_nat n + 1) by lia. exact Hst1.
  - exists st'. split; [exact Hrun|].
    rewrite length_seqZ in Hst'.
    replace (width vol * height vol * depth vol)
      with (linear_index vol 0 0 (Z.of_nat (Z.to_nat (depth vol))))
      by (unfold linear_index; rewrite Z2Nat.id by lia; ring).
    exact Hst'.
Qed.

(** For a readable volume whose dimensions fit the loop counters the
    conversion returns, and the grid carries the copied array as its only
    field. *)
Lemma volume_to_vtk_grid (vol : image) (origin spacing : vector_3d) :
  0 ≤ width vol < 2 ^ 32 → 0 ≤ height vol < 2 ^ 32 → 0 ≤ depth vol < 2 ^ 32 →
  width vol * height vol * depth vol < 2 ^ 63 →
  readable vol →
  ∃ grid vals,
    volume_to_vtk (Some vol) origin spacing = Returned grid
    ∧ sg_cell_data grid = [DoubleArray vals] ∧ sg_point_data grid = []
    ∧ da_name vals = "reconstruction_scalar" ∧ da_components vals = 1
    ∧ Z.of_nat (length (da_values vals)) = width vol * height vol * depth vol
    ∧ ∀ i j k, 0 ≤ i < width vol → 0 ≤ j < height vol → 0 ≤ k < depth vol →
        ∃ v, image_at vol i j k = Returned v
             ∧ buffer_read (da_values vals) ((k * height vol + j) * width vol + i)
               = Returned v.
Proof.
  intros Hw Hh Hd Hfit Hread.
  destruct (volume_to_vtk_copy vol Hw Hh Hd Hfit Hread)
    as ([pt vals] & Hrun & _ & Hname & Hcomp & Hlen & Hcopy).
  simpl in Hname, Hcomp, Hlen, Hcopy.
  destruct origin as [[ox oy] oz], spacing as [[sx sy] sz].
  eexists. exists vals. split; [|split; [|split; [|split; [|split; [|split]]]]].
  - unfold volume_to_vtk. rewrite Hrun. reflexivity.
  - reflexivity.
  - reflexivity.
  - exact Hname.
  - exact Hcomp.
  - exact Hlen.
  - intros i j k Hi Hj Hk.
    destruct (Hread i j k Hi Hj Hk) as [v Hv]. exists v. split; [exact Hv|].
    rewrite <- Hv. apply (Hcopy i j k Hi Hj Hk).
    apply linear_index_range; assumption.
Qed.

Lemma length_bind_const {A B : Type} (f : A → list B) (n : nat) (l : list A) :
  (∀ x, length (f x) = n) → length (l ≫= f) = (length l * n)%nat.
Proof.
  intros Hf. induction l as [|x l IH]; [reflexivity|].
  rewrite bind_cons, length_app, Hf, IH. simpl. reflexivity.
Qed.

Lemma lookup_bind_const {A B : Type} (f : A → list B) (n : nat) (l : list A)
    (a b : nat) (x : A) :
  (∀ x, length (f x) = n) → l !! a = Some x → (b < n)%nat →
  (l ≫= f) !! (a * n + b)%nat = f x !! b.
Proof.
  intros Hf. revert a. induction l as [|y l IH]; intros a Ha Hb; [discriminate|].
  rewrite bind_cons. destruct a as [|a]; simpl in *.
  - injection Ha as ->. rewrite lookup_app_l by (rewrite Hf; lia). reflexivity.
  - rewrite lookup_app_r by (rewrite Hf; lia). rewrite Hf.
    replace (n + a * n + b - n)%nat with (a * n + b)%nat by lia.
    by apply IH.
Qed.

Lemma to_int_small (z : Z) : 0 ≤ z < 2 ^ 31 → to_int z = z.
Proof.
  intros Hz. unfold to_int. rewrite Z.mod_small by lia. lia.
Qed.

(** The grid that [volume_to_vtk] returns has the dimensions of the volume,
    converted to [int], as its numbers of points, and one point per index
    triple, x fastest. *)
Lemma volume_to_vtk_points (vol : image) (origin spacing : vector_3d)
    (grid : vtkStructuredGrid) :
  volume_to_vtk (Some vol) origin spacing = Returned grid →
  sg_dimensions grid = (to_int (width vol), to_int (height vol), to_int (depth vol))
  ∧ sg_points grid
    = (k ← seqZ 0 (to_int (depth vol));
       j ← seqZ 0 (to_int (height vol));
       i ← seqZ 0 (to_int (width vol));
       [grid_point origin spacing i j k]).
Proof.
  destruct origin as [[ox oy] oz], spacing as [[sx sy] sz].
  unfold volume_to_vtk.
  destruct (for_unsigned _ (depth vol) _) as [st|]; [|discriminate].
  simpl. intros Hgrid. injection Hgrid as <-. split; reflexivity.
Qed.

Lemma lookup_seqZ_index (n i : Z) : 0 ≤ i < n → seqZ 0 n !! Z.to_nat i = Some i.
Proof. intros Hi. apply lookup_seqZ. lia. Qed.

(** The grid of a readable volume whose dimensions fit an [int] and whose
    number of voxels fits a [vtkIdType]: its numbers of points are the
    dimensions of the volume, its only field is the cell-data array
    "reconstruction_scalar", it has as many points as that array has values,
    and for every voxel (i, j, k) the point of the voxel's linear index lies
    at origin + (i, j, k) * spacing while the value of that index is the
    voxel's. *)
Lemma volume_to_vtk_point_grid (vol : image) (origin spacing : vector_3d) :
  0 ≤ width vol < 2 ^ 31 → 0 ≤ height vol < 2 ^ 31 → 0 ≤ depth vol < 2 ^ 31 →
  width vol * height vol * depth vol < 2 ^ 63 →
  readable vol →
  ∃ grid vals,
    volume_to_vtk (Some vol) origin spacing = Returned grid
    ∧ sg_cell_data grid = [DoubleArray vals]
    ∧ sg_point_data grid = []
    ∧ da_name vals = "reconstruction_scalar"
    ∧ sg_dimensions grid = (width vol, height vol, depth vol)
    ∧ length (sg_points grid) = length (da_values vals)
    ∧ ∀ i j k, 0 ≤ i < width vol → 0 ≤ j < height vol → 0 ≤ k < depth vol →
        lookupZ (sg_points grid) (linear_index vol i j k)
        = Some (grid_point origin spacing i j k)
        ∧ buffer_read (da_values vals) (linear_index vol i j k) = image_at vol i j k.
Proof.
  intros Hw Hh Hd Hfit Hread.
  destruct (volume_to_vtk_grid vol origin spacing) as
    (grid & vals & Hgrid & Hcell & Hpd & Hname & _ & Hlen & Hcopy);
    [lia|lia|lia|exact Hfit|exact Hread|].
  destruct (volume_to_vtk_points vol origin spacing grid Hgrid) as [Hdims Hpoints].
  rewrite !to_int_small in Hdims, Hpoints by lia.
  set (w := Z.to_nat (width vol)). set (h := Z.to_nat (height vol)).
  assert (∀ k j, length (seqZ 0 (width vol) ≫= λ i, [grid_point origin spacing i j k])
                 = (w * 1)%nat) as Hrow.
  { intros k j. rewrite (length_bind_const _ 1%nat) by reflexivity.
    rewrite length_seqZ. reflexivity. }
  assert (∀ k, length (seqZ 0 (height vol) ≫= λ j,
                         seqZ 0 (width vol) ≫= λ i, [grid_point origin spacing i j k])
               = (h * (w * 1))%nat) as Hslice.
  { intros k. rewrite (length_bind_const _ (w * 1)%nat) by (intros j; apply Hrow).
    rewrite length_seqZ. reflexivity. }
  exists grid, vals. split; [exact Hgrid|]. split; [exact Hcell|].
  split; [exact Hpd|]. split; [exact Hname|]. split; [exact Hdims|]. split.
  - rewrite Hpoints.
    rewrite (length_bind_const _ (h * (w * 1))%nat) by exact Hslice.
    rewrite length_seqZ. unfold w, h. nia.
  - intros i j k Hi Hj Hk. split.
    + pose proof (linear_index_range vol i j k Hi Hj Hk) as Hrange.
      rewrite lookupZ_nonneg by lia. rewrite Hpoints.
      replace (Z.to_nat (linear_index vol i j k))
        with (Z.to_nat k * (h * (w * 1))
              + (Z.to_nat j * (w * 1) + (Z.to_nat i * 1 + 0)))%nat
        by (unfold linear_index, w, h; nia).
      rewrite (lookup_bind_const _ (h * (w * 1))%nat _ _ _ k Hslice);
        [|apply lookup_seqZ_index; lia|unfold w, h; nia].
      rewrite (lookup_bind_const _ (w * 1)%nat _ _ _ j (Hrow k));
        [|apply lookup_seqZ_index; lia|unfold w; nia].
      rewrite (lookup_bind_const _ 1%nat _ _ _ i);
        [reflexivity|reflexivity|apply lookup_seqZ_index; lia|lia].
    + destruct (Hcopy i j k Hi Hj Hk) as (v & Hv & Hval).
      unfold linear_index. rewrite Hv. exact Hval.
Qed.

(** C6: [volume_to_vtk] builds one scalar array, named
    "reconstruction_scalar", of width * height * depth entries, in which the
    value [vol.at(i, j, k)] sits at linear index
    [(k * height + j) * width + i]; the grid it returns carries this array
    and no other.  The dimensions fit the [unsigned int] loop counters and
    their product, computed in [size_t], fits the [vtkIdType] tuple count. *)
Theorem volume_to_vtk_scalar_field (vol : image) (origin spacing : vector_3d) :
  0 ≤ width vol < 2 ^ 32 → 0 ≤ height vol < 2 ^ 32 → 0 ≤ depth vol < 2 ^ 32 →
  width vol * height vol * depth vol < 2 ^ 63 →
  readable vol →
  ∃ grid vals,
    volume_to_vtk (Some vol) origin spacing = Returned grid
    ∧ sg_cell_data grid = [DoubleArray vals] ∧ sg_point_data grid = []
    ∧ da_name vals = "reconstruction_scalar" ∧ da_components vals = 1
    ∧ Z.of_nat (length (da_values vals)) = width vol * height vol * depth vol
    ∧ ∀ i j k, 0 ≤ i < width vol → 0 ≤ j < height vol → 0 ≤ k < depth vol →
        ∃ v, image_at vol i j k = Returned v
             ∧ buffer_read (da_values vals) ((k * height vol + j) * width vol + i)
               = Returned v.
Proof. apply volume_to_vtk_grid. Qed.

Lemma sample_volume_readable : readable sample_volume.
Proof.
  intros i j k Hi Hj Hk. simpl in Hi, Hj, Hk.
  assert (i = 0 ∨ i = 1) as [-> | ->] by lia;
    assert (j = 0 ∨ j = 1) as [-> | ->] by lia;
    assert (k = 0 ∨ k = 1) as [-> | ->] by lia;
    eexists; reflexivity.
Qed.

Lemma volume_to_vtk_scalar_field_witness :
  ∃ grid vals,
    volume_to_vtk (Some sample_volume) (0, 0, 0)%float (1, 1, 1)%float = Returned grid
    ∧ sg_cell_data grid = [DoubleArray vals] ∧ sg_point_data grid = []
    ∧ da_name vals = "reconstruction_scalar" ∧ da_components vals = 1
    ∧ Z.of_nat (length (da_values vals)) = 2 * 2 * 2
    ∧ ∀ i j k, 0 ≤ i < 2 → 0 ≤ j < 2 → 0 ≤ k < 2 →
        ∃ v, image_at sample_volume i j k = Returned v
             ∧ buffer_read (da_values vals) ((k * 2 + j) * 2 + i) = Returned v.
Proof.
  apply (volume_to_vtk_scalar_field sample_volume (0, 0, 0)%float (1, 1, 1)%float).
  - simpl. lia.
  - simpl. lia.
  - simpl. lia.
  - simpl. lia.
  - exact sample_volume_readable.
Defined.

(** C5: the 2 x 2 x 2 volume with origin (0, 0, 0) and spacing (1, 1, 1).
    The dimensions are taken as numbers of grid points, so the grid spans
    [0, 1] on every axis, not [0, 2], and it has a single cell, although the
    array attached to its cells has the 8 values of the volume. *)
Theorem volume_to_vtk_unit_spacing_extent :
  ∃ grid vals,
    volume_to_vtk (Some sample_volume) (0, 0, 0)%float (1, 1, 1)%float = Returned grid
    ∧ sg_dimensions grid = (2, 2, 2)
    ∧ GetBounds grid = (0, 1, 0, 1, 0, 1)%float
    ∧ GetNumberOfCells grid = 1
    ∧ sg_cell_data grid = [DoubleArray vals]
    ∧ length (da_values vals) = 8%nat.
Proof. eexists. eexists. repeat split; reflexivity. Qed.

(** ** FuseDepthTool::execute *)

Lemma missing_inputs_check (tool : FuseDepthTool) :
  missing_inputs tool → negb (hasCameras tool) || negb (hasDepthLookup tool) = true.
Proof.
  unfold missing_inputs, hasCameras, hasDepthLookup.
  intros [H | [H | [H | H]]]; rewrite H.
  - reflexivity.
  - rewrite bool_decide_eq_true_2 by reflexivity. reflexivity.
  - apply orb_true_r.
  - apply orb_true_r.
Qed.

(** C3: when the camera set or the depth-map lookup is empty or absent,
    [execute] fails at once with the "Insufficient data" message: that
    message is all it does, no configuration is read, and the tool, its
    algorithm included, is left as it was. *)
Theorem execute_insufficient_data (host : Host) (tool : FuseDepthTool) :
  missing_inputs tool →
  execute host tool
  = mk_execute_result false tool
      [QMessageBox_information "Insufficient data"
         "This operation requires a video source, cameras, and landmarks"].
Proof.
  intros Hmiss. unfold execute. rewrite missing_inputs_check by exact Hmiss.
  reflexivity.
Qed.

Lemma execute_insufficient_data_witness :
  execute sample_host tool_without_cameras
  = mk_execute_result false tool_without_cameras
      [QMessageBox_information "Insufficient data"
         "This operation requires a video source, cameras, and landmarks"].
Proof.
  apply (execute_insufficient_data sample_host tool_without_cameras).
  right. left. reflexivity.
Defined.

Lemma present_inputs_check (tool : FuseDepthTool) :
  ¬ missing_inputs tool → negb (hasCameras tool) || negb (hasDepthLookup tool) = false.
Proof.
  unfold missing_inputs, hasCameras, hasDepthLookup. intros Hpresent.
  destruct (td_cameras (data tool)) as [cams|]; [|tauto].
  destruct (td_depthLookup (data tool)) as [[|entry rest]|]; [tauto| |tauto].
  rewrite bool_decide_eq_false_2; [reflexivity|].
  intros ->. tauto.
Qed.

(** The algorithm is set by [execute] only when a configuration was found
    and passed the check. *)
Lemma execute_sets_algorithm_after_check (host : Host) (tool : FuseDepthTool)
    (block : string) (config : gmap string string) :
  SetNestedAlgoConfiguration block config ∈ er_trace (execute host tool) →
  ∃ file_config,
    readConfig host "gui_integrate_depth_maps.conf" = Some file_config
    ∧ config = merge_config host file_config (td_config (data tool))
    ∧ check_nested_algo_configuration host BLOCK_IDM config = true.
Proof.
  unfold execute.
  destruct (negb (hasCameras tool) || negb (hasDepthLookup tool)).
  { simpl. rewrite list_elem_of_singleton. discriminate. }
  destruct (readConfig host "gui_integrate_depth_maps.conf") as [file_config|].
  - destruct (check_nested_algo_configuration host BLOCK_IDM
                (merge_config host file_config (td_config (data tool)))) eqn:Hcheck; simpl.
    + rewrite !elem_of_cons, elem_of_nil.
      intros [H | [H | [H | [H | []]]]]; try discriminate.
      injection H as _ ->. by exists file_config.
    + rewrite !elem_of_cons, elem_of_nil.
      intros [H | [H | [H | []]]]; discriminate.
  - simpl. rewrite !elem_of_cons, elem_of_nil.
    intros [H | [H | []]]; discriminate.
Qed.

(** C4: with the inputs present, when the configuration resource is not
    found or the nested [integrate_depth_maps] configuration fails its
    check, [execute] fails, its last act being the "Configuration error"
    message; no algorithm is set and the tool is left as it was. *)
Theorem execute_configuration_error (host : Host) (tool : FuseDepthTool) :
  ¬ missing_inputs tool → configuration_fails host tool →
  er_value (execute host tool) = false
  ∧ er_tool (execute host tool) = tool
  ∧ (∃ text, last (er_trace (execute host tool))
             = Some (QMessageBox_critical "Configuration error" text))
  ∧ (∀ block config,
       SetNestedAlgoConfiguration block config ∉ er_trace (execute host tool))
  ∧ StartTool ∉ er_trace (execute host tool).
Proof.
  intros Hpresent Hfail.
  assert (∀ block config,
            SetNestedAlgoConfiguration block config ∉ er_trace (execute host tool))
    as Hnoset.
  { intros block config Hin.
    apply execute_sets_algorithm_after_check in Hin as (fc & Hread & -> & Hcheck).
    destruct Hfail as [Hnone | (fc' & Hread' & Hcheck')]; [congruence|].
    rewrite Hread in Hread'. injection Hread' as <-. congruence. }
  revert Hnoset. unfold execute. rewrite present_inputs_check by exact Hpresent.
  destruct Hfail as [-> | (file_config & -> & ->)]; simpl; intros Hnoset.
  - repeat split; try done.
    + eexists. reflexivity.
    + rewrite !elem_of_cons, elem_of_nil. intros [H | [H | []]]; discriminate.
  - repeat split; try done.
    + eexists. reflexivity.
    + rewrite !elem_of_cons, elem_of_nil. intros [H | [H | [H | []]]]; discriminate.
Qed.

Lemma sample_tool_inputs_present : ¬ missing_inputs sample_tool.
Proof.
  unfold missing_inputs. simpl.
  intros [H | [H | [H | H]]]; discriminate.
Qed.

Lemma execute_configuration_error_witness :
  (er_value (execute bare_host sample_tool) = false
   ∧ er_tool (execute bare_host sample_tool) = sample_tool
   ∧ (∃ text, last (er_trace (execute bare_host sample_tool))
              = Some (QMessageBox_critical "Configuration error" text))
   ∧ (∀ block config,
        SetNestedAlgoConfiguration block config ∉ er_trace (execute bare_host sample_tool))
   ∧ StartTool ∉ er_trace (execute bare_host sample_tool))
  ∧ (er_value (execute misconfigured_host sample_tool) = false
     ∧ er_tool (execute misconfigured_host sample_tool) = sample_tool
     ∧ (∃ text, last (er_trace (execute misconfigured_host sample_tool))
                = Some (QMessageBox_critical "Configuration error" text))
     ∧ (∀ block config,
          SetNestedAlgoConfiguration block config
          ∉ er_trace (execute misconfigured_host sample_tool))
     ∧ StartTool ∉ er_trace (execute misconfigured_host sample_tool)).
Proof.
  split.
  - apply (execute_configuration_error bare_host sample_tool).
    + exact sample_tool_inputs_present.
    + left. reflexivity.
  - apply (execute_configuration_error misconfigured_host sample_tool).
    + exact sample_tool_inputs_present.
    + right. exists ∅. split; reflexivity.
Defined.




(** The precedence is the library's: [execute] fixes which configuration is
    the receiver and which the argument, and under a merge that lets the
    receiver keep its values the configuration checked holds the value of
    the file. *)
Example execute_precedence_follows_merge :
  CheckNestedAlgoConfiguration BLOCK_IDM
    (keeping_merge sample_config (td_config (data sample_tool)))
  ∈ er_trace (execute keeping_host sample_tool)
  ∧ keeping_merge sample_config (td_config (data sample_tool)) !! "ray_potential_rho"
    = Some "1.0".
Proof.
  split; [|reflexivity].
  vm_compute. apply list_elem_of_further, list_elem_of_here.
Qed.

(** ** FuseDepthTool::run *)

(** The collecting loop, entry by entry: the entries picked are those whose
    frame has a camera, in the order of the lookup, and each adds its camera
    to one vector, its loaded depth map to the other and its load to the
    trace. *)
Lemma collect_picks_common_frames (host : Host)
    (cameras : gmap frame_id_t camera_sptr) (depths : depth_lookup)
    (cs : list camera_perspective_sptr) (ds : list image_container_sptr)
    (tr : list event) :
  (∀ f name, (f, name) ∈ depths → is_Some (cameras !! f) →
     ∃ img, load_depth_map (disk host) name = Returned img) →
  ∃ picked : list (frame_id_t * string * camera_sptr * image),
    collect host cameras depths (cs, ds) tr
    = (Returned
         (cs ++ ((λ p, dynamic_pointer_cast_camera_perspective p.1.2) <$> picked),
          ds ++ ((λ p, Some p.2) <$> picked)),
       tr ++ ((λ p, LoadDepthMap p.1.1.1 p.1.1.2) <$> picked))
    ∧ (λ p, p.1.1.1) <$> picked = frames_in_both cameras depths
    ∧ Forall (λ p, (p.1.1.1, p.1.1.2) ∈ depths
                   ∧ cameras !! p.1.1.1 = Some p.1.2
                   ∧ load_depth_map (disk host) p.1.1.2 = Returned p.2) picked.
Proof.
  revert cs ds tr. induction depths as [|[f name] rest IH]; intros cs ds tr Hload.
  - exists []. simpl. rewrite !app_nil_r. done.
  - assert (∀ f' name', (f', name') ∈ rest → is_Some (cameras !! f') →
              ∃ img, load_depth_map (disk host) name' = Returned img) as Hrest.
    { intros f' name' Hin. apply Hload. by apply list_elem_of_further. }
    unfold frames_in_both. simpl.
    destruct (cameras !! f) as [cam|] eqn:Hcam.
    + destruct (Hload f name) as [img Himg]; [apply list_elem_of_here|by rewrite Hcam|].
      destruct (IH (cs ++ [dynamic_pointer_cast_camera_perspective cam])
                   (ds ++ [Some img]) (tr ++ [LoadDepthMap f name]) Hrest)
        as (picked & Hrun & Hframes & Hall).
      exists ((f, name, cam, img) :: picked). split; [|split].
      * unfold mbind, prog_bind, emit, lift. simpl. rewrite Himg.
        rewrite Hrun. rewrite <- !app_assoc. reflexivity.
      * rewrite filter_cons_True by (by rewrite Hcam). simpl. f_equal. exact Hframes.
      * apply Forall_cons. split; [by split; [apply list_elem_of_here|]|].
        eapply Forall_impl; [exact Hall|]. simpl.
        intros p (Hin & Hc & Hl). split; [by apply list_elem_of_further|done].
    + destruct (IH cs ds tr Hrest) as (picked & Hrun & Hframes & Hall).
      exists picked. split; [exact Hrun|]. split.
      * rewrite filter_cons_False by (rewrite Hcam; by intros [? ?]). exact Hframes.
      * eapply Forall_impl; [exact Hall|]. simpl.
        intros p (Hin & Hc & Hl). split; [by apply list_elem_of_further|done].
Qed.

(** A run whose inputs are present and whose depth-map files load: the
    loads of the picked entries, then one call of [integrate] on the two
    vectors, then, when the volume converts, the message on [cerr] and the
    publication of the grid made from the volume, the minimum point of the
    region of interest and the spacing. *)
Lemma run_unfolded (host : Host) (tool : FuseDepthTool) (depths : depth_lookup)
    (cameras : gmap frame_id_t camera_sptr) (roi : vtkBox)
    (algo : integrate_depth_maps) :
  td_depthLookup (data tool) = Some depths →
  td_cameras (data tool) = Some cameras →
  td_roi (data tool) = Some roi →
  fuse_algo tool = Some algo →
  (∀ f name, (f, name) ∈ depths → is_Some (cameras !! f) →
     ∃ img, load_depth_map (disk host) name = Returned img) →
  ∃ picked : list (frame_id_t * string * camera_sptr * image),
    let cameras_out := (λ p, dynamic_pointer_cast_camera_perspective p.1.2) <$> picked in
    let depths_out := (λ p, Some p.2) <$> picked in
    let loads := (λ p, LoadDepthMap p.1.1.1 p.1.1.2) <$> picked in
    let call := Integrate (XMin roi) (XMax roi) depths_out cameras_out in
    let result := integrate algo (XMin roi) (XMax roi) depths_out cameras_out in
    run host tool
    = match volume_to_vtk result.1 (XMin roi) result.2, result.1 with
      | Returned grid, Some vol =>
          (Returned tt,
           loads ++ [call; PrintCerr (XMin roi) (width vol); UpdateFusion grid])
      | _, _ => (Undefined, loads ++ [call])
      end
    ∧ (λ p, p.1.1.1) <$> picked = frames_in_both cameras depths
    ∧ Forall (λ p, (p.1.1.1, p.1.1.2) ∈ depths
                   ∧ cameras !! p.1.1.1 = Some p.1.2
                   ∧ load_depth_map (disk host) p.1.1.2 = Returned p.2) picked.
Proof.
  intros Hd Hc Hr Ha Hload.
  destruct (collect_picks_common_frames host cameras depths [] [] [] Hload)
    as (picked & Hrun & Hframes & Hall).
  exists picked. simpl. split; [|done].
  unfold run, run_prog. rewrite Hd, Hc, Hr, Ha.
  unfold mbind, prog_bind, deref, lift, emit. simpl. rewrite Hrun. simpl.
  destruct (integrate algo (XMin roi) (XMax roi)
              ((λ p, Some p.2) <$> picked)
              ((λ p, dynamic_pointer_cast_camera_perspective p.1.2) <$> picked))
    as [volume spacing]. simpl.
  destruct (volume_to_vtk volume (XMin roi) spacing) as [grid|];
    destruct volume as [vol|]; simpl; try reflexivity.
  rewrite <- !app_assoc. reflexivity.
Qed.

Lemma well_formed_lookup_NoDup (depths : depth_lookup) :
  well_formed_lookup depths → NoDup depths.*1.
Proof.
  unfold well_formed_lookup. generalize (depths.*1). intros keys Hsorted.
  induction Hsorted as [|key rest Hrest IH Hlt]; [constructor|].
  constructor; [|exact IH].
  intros Hin. pose proof (proj1 (Forall_forall _ _) Hlt key Hin). lia.
Qed.

(** C1: the vectors handed to [integrate] hold one entry per frame id that
    is both in the camera collection and in the depth-map lookup, and none
    for any other frame; a frame in only one of the two is passed over and
    the run goes on.  The two vectors have the same length, and entry [i] of
    each comes from the same frame: the camera found for it and the depth
    map loaded from its file. *)
Theorem run_pairs_frames_in_both (host : Host) (tool : FuseDepthTool)
    (depths : depth_lookup) (cameras : gmap frame_id_t camera_sptr)
    (roi : vtkBox) (algo : integrate_depth_maps) :
  td_depthLookup (data tool) = Some depths →
  td_cameras (data tool) = Some cameras →
  td_roi (data tool) = Some roi →
  fuse_algo tool = Some algo →
  well_formed_lookup depths →
  (∀ f name, (f, name) ∈ depths → is_Some (cameras !! f) →
     ∃ img, load_depth_map (disk host) name = Returned img) →
  ∃ frames cameras_out depths_out loads rest,
    (run host tool).2
    = loads ++ Integrate (XMin roi) (XMax roi) depths_out cameras_out :: rest
    ∧ length cameras_out = length frames
    ∧ length depths_out = length frames
    ∧ NoDup frames
    ∧ (∀ f, f ∈ frames ↔ is_Some (cameras !! f) ∧ f ∈ depths.*1)
    ∧ ∀ i f, frames !! i = Some f →
        ∃ name cam img,
          (f, name) ∈ depths ∧ cameras !! f = Some cam
          ∧ load_depth_map (disk host) name = Returned img
          ∧ cameras_out !! i = Some (dynamic_pointer_cast_camera_perspective cam)
          ∧ depths_out !! i = Some (Some img).
Proof.
  intros Hd Hc Hr Ha Hwf Hload.
  destruct (run_unfolded host tool depths cameras roi algo Hd Hc Hr Ha Hload)
    as (picked & Hrun & Hframes & Hall).
  simpl in Hrun.
  exists (frames_in_both cameras depths).
  exists ((λ p, dynamic_pointer_cast_camera_perspective p.1.2) <$> picked).
  exists ((λ p, Some p.2) <$> picked).
  exists ((λ p, LoadDepthMap p.1.1.1 p.1.1.2) <$> picked).
  assert (∃ rest, (run host tool).2
                  = ((λ p, LoadDepthMap p.1.1.1 p.1.1.2) <$> picked)
                    ++ Integrate (XMin roi) (XMax roi) ((λ p, Some p.2) <$> picked)
                         ((λ p, dynamic_pointer_cast_camera_perspective p.1.2) <$> picked)
                       :: rest) as [rest Hrest].
  { rewrite Hrun.
    destruct (integrate algo _ _ _ _) as [volume spacing]. simpl.
    destruct (volume_to_vtk volume (XMin roi) spacing) as [grid|];
      destruct volume as [vol|]; eexists; reflexivity. }
  exists rest. split; [exact Hrest|].
  rewrite <- Hframes, !length_fmap. split; [reflexivity|]. split; [reflexivity|].
  rewrite Hframes. split; [|split].
  - unfold frames_in_both. apply NoDup_filter. by apply well_formed_lookup_NoDup.
  - intros f. unfold frames_in_both.
    apply (list_elem_of_filter (λ frame, is_Some (cameras !! frame))).
  - intros i f Hi. rewrite <- Hframes in Hi.
    apply list_lookup_fmap_Some in Hi as (p & -> & Hp).
    pose proof (proj1 (Forall_lookup _ _) Hall i p Hp) as (Hin & Hcam & Himg).
    exists p.1.1.2, p.1.2, p.2. repeat split; try done.
    + rewrite list_lookup_fmap, Hp. reflexivity.
    + rewrite list_lookup_fmap, Hp. reflexivity.
Qed.

Lemma sample_lookup_well_formed : well_formed_lookup sample_lookup.
Proof.
  unfold well_formed_lookup, sample_lookup. simpl.
  repeat constructor; lia.
Qed.

Lemma sample_lookup_loads (f : frame_id_t) (name : string) :
  (f, name) ∈ sample_lookup → is_Some (sample_cameras !! f) →
  ∃ img, load_depth_map (disk sample_host) name = Returned img.
Proof.
  unfold sample_lookup. rewrite !elem_of_cons, elem_of_nil.
  intros [H | [H | []]] _; injection H as -> ->; eexists; reflexivity.
Qed.

Lemma run_pairs_frames_in_both_witness :
  ∃ frames cameras_out depths_out loads rest,
    (run sample_host sample_tool).2
    = loads ++ Integrate (XMin sample_roi) (XMax sample_roi) depths_out cameras_out
               :: rest
    ∧ length cameras_out = length frames
    ∧ length depths_out = length frames
    ∧ NoDup frames
    ∧ (∀ f, f ∈ frames ↔ is_Some (sample_cameras !! f) ∧ f ∈ sample_lookup.*1)
    ∧ ∀ i f, frames !! i = Some f →
        ∃ name cam img,
          (f, name) ∈ sample_lookup ∧ sample_cameras !! f = Some cam
          ∧ load_depth_map (disk sample_host) name = Returned img
          ∧ cameras_out !! i = Some (dynamic_pointer_cast_camera_perspective cam)
          ∧ depths_out !! i = Some (Some img).
Proof.
  apply (run_pairs_frames_in_both sample_host sample_tool sample_lookup
           sample_cameras sample_roi sample_algo).
  - reflexivity.
  - reflexivity.
  - reflexivity.
  - reflexivity.
  - exact sample_lookup_well_formed.
  - exact sample_lookup_loads.
Defined.

(** Frame 1 has a camera and a depth map, frame 2 a camera only, frame 3 a
    depth map only: the pair of frame 1 is all that reaches [integrate]. *)
Example run_sample_pairs :
  frames_in_both sample_cameras sample_lookup = [1]
  ∧ ∃ depth rest,
      load_depth_map sample_disk "depth_1.vti" = Returned depth
      ∧ (run sample_host sample_tool).2
        = LoadDepthMap 1 "depth_1.vti"
          :: Integrate (0, 0, 0)%float (2, 2, 2)%float [Some depth]
               [Some (mk_camera_perspective 101)]
          :: rest.
Proof. split; [reflexivity|]. eexists. eexists. split; reflexivity. Qed.

(** With files that load, the collecting loop returns the camera vector
    and the depth-map vector of the common entries, after one load per
    entry. *)
Lemma collect_vectors (host : Host) (cameras : gmap frame_id_t camera_sptr)
    (depths : depth_lookup)
    (cs : list camera_perspective_sptr) (ds : list image_container_sptr)
    (tr : list event) :
  (∀ f name, (f, name) ∈ depths → is_Some (cameras !! f) →
     ∃ img, load_depth_map (disk host) name = Returned img) →
  collect host cameras depths (cs, ds) tr
  = (Returned (cs ++ cameras_out_of cameras depths,
               ds ++ depths_out_of (disk host) cameras depths),
     tr ++ ((λ entry, LoadDepthMap entry.1 entry.2) <$> common_entries cameras depths)).
Proof.
  revert cs ds tr. induction depths as [|[f name] rest IH]; intros cs ds tr Hload.
  - simpl. rewrite !app_nil_r. reflexivity.
  - assert (∀ f' name', (f', name') ∈ rest → is_Some (cameras !! f') →
              ∃ img, load_depth_map (disk host) name' = Returned img) as Hrest.
    { intros f' name' Hin. apply Hload. by apply list_elem_of_further. }
    unfold cameras_out_of, depths_out_of, common_entries, depth_lookup in *.
    simpl collect.
    destruct (cameras !! f) as [cam|] eqn:Hcam.
    + destruct (Hload f name) as [img Himg]; [apply list_elem_of_here|by rewrite Hcam|].
      unfold mbind, prog_bind, emit, lift. simpl. rewrite Himg.
      rewrite (IH _ _ _ Hrest).
      rewrite filter_cons_True by (simpl; by rewrite Hcam).
      rewrite !fmap_cons. cbn [fst snd]. rewrite Hcam, Himg.
      rewrite <- !app_assoc. reflexivity.
    + rewrite (IH _ _ _ Hrest).
      rewrite filter_cons_False by (simpl; rewrite Hcam; by intros [? ?]).
      reflexivity.
Qed.

(** C7: once [integrate] has returned the volume and the spacing, the run
    converts the volume and its last act is to publish the grid so obtained.
    That grid has the dimensions of the volume, its point of index
    (i, j, k) lies at the minimum point of the region of interest plus
    (i, j, k) times the returned spacing, and its scalar array holds the
    values of the volume. *)
Theorem run_publishes_grid (host : Host) (tool : FuseDepthTool)
    (depths : depth_lookup) (cameras : gmap frame_id_t camera_sptr)
    (roi : vtkBox) (algo : integrate_depth_maps) (vol : image)
    (spacing : vector_3d) :
  td_depthLookup (data tool) = Some depths →
  td_cameras (data tool) = Some cameras →
  td_roi (data tool) = Some roi →
  fuse_algo tool = Some algo →
  (∀ f name, (f, name) ∈ depths → is_Some (cameras !! f) →
     ∃ img, load_depth_map (disk host) name = Returned img) →
  integrate algo (XMin roi) (XMax roi)
    (depths_out_of (disk host) cameras depths) (cameras_out_of cameras depths)
  = (Some vol, spacing) →
  0 ≤ width vol < 2 ^ 31 → 0 ≤ height vol < 2 ^ 31 → 0 ≤ depth vol < 2 ^ 31 →
  width vol * height vol * depth vol < 2 ^ 63 →
  readable vol →
  ∃ grid vals,
    run host tool
    = (Returned tt,
       ((λ entry, LoadDepthMap entry.1 entry.2) <$> common_entries cameras depths)
       ++ [Integrate (XMin roi) (XMax roi)
             (depths_out_of (disk host) cameras depths) (cameras_out_of cameras depths);
           PrintCerr (XMin roi) (width vol);
           UpdateFusion grid])
    ∧ volume_to_vtk (Some vol) (XMin roi) spacing = Returned grid
    ∧ sg_dimensions grid = (width vol, height vol, depth vol)
    ∧ sg_cell_data grid = [DoubleArray vals]
    ∧ sg_point_data grid = []
    ∧ da_name vals = "reconstruction_scalar"
    ∧ ∀ i j k, 0 ≤ i < width vol → 0 ≤ j < height vol → 0 ≤ k < depth vol →
        lookupZ (sg_points grid) (linear_index vol i j k)
        = Some (grid_point (XMin roi) spacing i j k)
        ∧ buffer_read (da_values vals) (linear_index vol i j k) = image_at vol i j k.
Proof.
  intros Hd Hc Hr Ha Hload Hint Hw Hh Hdp Hfit Hread.
  destruct (volume_to_vtk_point_grid vol (XMin roi) spacing Hw Hh Hdp Hfit Hread)
    as (grid & vals & Hgrid & Hcell & Hpd & Hname & Hdims & _ & Hpoints).
  exists grid, vals. split; [|done].
  unfold run, run_prog, mbind, prog_bind, deref, lift, emit.
  rewrite Hd, Hc, Hr, Ha. simpl.
  rewrite (collect_vectors host cameras depths [] [] [] Hload). simpl.
  rewrite Hint, Hgrid. simpl. rewrite <- !app_assoc. reflexivity.
Qed.

Lemma run_publishes_grid_witness :
  ∃ grid vals,
    run sample_host sample_tool
    = (Returned tt,
       ((λ entry, LoadDepthMap entry.1 entry.2)
          <$> common_entries sample_cameras sample_lookup)
       ++ [Integrate (XMin sample_roi) (XMax sample_roi)
             (depths_out_of (disk sample_host) sample_cameras sample_lookup)
             (cameras_out_of sample_cameras sample_lookup);
           PrintCerr (XMin sample_roi) (width sample_volume);
           UpdateFusion grid])
    ∧ volume_to_vtk (Some sample_volume) (XMin sample_roi) (1, 1, 1)%float
      = Returned grid
    ∧ sg_dimensions grid
      = (width sample_volume, height sample_volume, depth sample_volume)
    ∧ sg_cell_data grid = [DoubleArray vals]
    ∧ sg_point_data grid = []
    ∧ da_name vals = "reconstruction_scalar"
    ∧ ∀ i j k, 0 ≤ i < width sample_volume → 0 ≤ j < height sample_volume →
        0 ≤ k < depth sample_volume →
        lookupZ (sg_points grid) (linear_index sample_volume i j k)
        = Some (grid_point (XMin sample_roi) (1, 1, 1)%float i j k)
        ∧ buffer_read (da_values vals) (linear_index sample_volume i j k)
          = image_at sample_volume i j k.
Proof.
  apply (run_publishes_grid sample_host sample_tool sample_lookup sample_cameras
           sample_roi sample_algo sample_volume (1, 1, 1)%float).
  - reflexivity.
  - reflexivity.
  - reflexivity.
  - reflexivity.
  - exact sample_lookup_loads.
  - reflexivity.
  - simpl. lia.
  - simpl. lia.
  - simpl. lia.
  - simpl. lia.
  - exact sample_volume_readable.
Defined.

(** C9 (as stated) fails: with the cancellation signal raised before the run
    starts, the run still loads the depth map of frame 1 (and goes on to
    call [integrate]). *)
Lemma run_works_when_cancelled :
  ¬ respects_cancellation sample_host (with_cancel true sample_tool).
Proof.
  unfold respects_cancellation. intros Hclaim.
  apply (Hclaim eq_refl (LoadDepthMap 1 "depth_1.vti")); [|exact I].
  vm_compute. apply list_elem_of_here.
Qed.

Example run_integrates_when_cancelled :
  ∃ minpt maxpt ds cs,
    Integrate minpt maxpt ds cs ∈ (run sample_host (with_cancel true sample_tool)).2.
Proof.
  do 4 eexists. vm_compute.
  apply list_elem_of_further, list_elem_of_here.
Qed.

(** C9 (as amended): the run does not consult the cancellation signal; how it
    ends and all it does, every depth-map load, the call of [integrate] and
    the publication, are the same whether or not cancellation was
    requested. *)
Theorem run_ignores_cancellation (host : Host) (tool : FuseDepthTool) (b : bool) :
  run host (with_cancel b tool) = run host tool.
Proof. reflexivity. Qed.

(** * Further properties *)

(** ** FuseDepthTool::execute *)

(** [execute] starts the tool exactly when the inputs are present, the
    configuration resource is found and the merged configuration passes the
    nested-algorithm check. *)
Theorem execute_starts_iff (host : Host) (tool : FuseDepthTool) :
  StartTool ∈ er_trace (execute host tool)
  ↔ ¬ missing_inputs tool
    ∧ ∃ file_config,
        readConfig host "gui_integrate_depth_maps.conf" = Some file_config
        ∧ check_nested_algo_configuration host BLOCK_IDM
            (merge_config host file_config (td_config (data tool))) = true.
Proof.
  split.
  - unfold execute.
    destruct (negb (hasCameras tool) || negb (hasDepthLookup tool)) eqn:Hin.
    { simpl. rewrite list_elem_of_singleton. discriminate. }
    assert (¬ missing_inputs tool) as Hpresent.
    { intros Hmiss. apply missing_inputs_check in Hmiss. congruence. }
    destruct (readConfig host "gui_integrate_depth_maps.conf") as [file_config|].
    + destruct (check_nested_algo_configuration host BLOCK_IDM
                  (merge_config host file_config (td_config (data tool)))) eqn:Hcheck; simpl.
      * intros _. split; [exact Hpresent|]. by exists file_config.
      * rewrite !elem_of_cons, elem_of_nil. intros [H | [H | [H | []]]]; discriminate.
    + simpl. rewrite !elem_of_cons, elem_of_nil. intros [H | [H | []]]; discriminate.
  - intros (Hpresent & file_config & Hread & Hcheck).
    unfold execute. rewrite present_inputs_check by exact Hpresent.
    rewrite Hread, Hcheck. simpl.
    rewrite !elem_of_cons. right. right. right. left. reflexivity.
Qed.

(** [execute] ends in one of two ways and never changes the tool's data:
    either it returns false after a message box, its last act, with the
    tool untouched and nothing started; or it shows no message, sets the
    algorithm from a configuration that passed the check, and returns what
    starting the tool returns, the start being its last act. *)
Theorem execute_reports_or_starts (host : Host) (tool : FuseDepthTool) :
  data (er_tool (execute host tool)) = data tool
  ∧ ((er_value (execute host tool) = false
      ∧ er_tool (execute host tool) = tool
      ∧ (∃ e, last (er_trace (execute host tool)) = Some e ∧ is_message e)
      ∧ StartTool ∉ er_trace (execute host tool))
     ∨ (er_value (execute host tool) = AbstractTool_execute host
        ∧ last (er_trace (execute host tool)) = Some StartTool
        ∧ Forall (λ e, ¬ is_message e) (er_trace (execute host tool))
        ∧ ∃ config,
            check_nested_algo_configuration host BLOCK_IDM config = true
            ∧ fuse_algo (er_tool (execute host tool))
              = set_nested_algo_configuration host BLOCK_IDM config (fuse_algo tool))).
Proof.
  unfold execute.
  destruct (negb (hasCameras tool) || negb (hasDepthLookup tool)).
  { split; [reflexivity|]. left. simpl. repeat split.
    - eexists. split; [reflexivity|exact I].
    - rewrite list_elem_of_singleton. discriminate. }
  destruct (readConfig host "gui_integrate_depth_maps.conf") as [file_config|].
  - destruct (check_nested_algo_configuration host BLOCK_IDM
                (merge_config host file_config (td_config (data tool)))) eqn:Hcheck; simpl.
    + split; [reflexivity|]. right. repeat split.
      * repeat constructor; simpl; tauto.
      * eexists. split; [exact Hcheck|reflexivity].
    + split; [reflexivity|]. left. repeat split.
      * eexists. split; [reflexivity|exact I].
      * rewrite !elem_of_cons, elem_of_nil. intros [H | [H | [H | []]]]; discriminate.
  - split; [reflexivity|]. left. simpl. repeat split.
    + eexists. split; [reflexivity|exact I].
    + rewrite !elem_of_cons, elem_of_nil. intros [H | [H | []]]; discriminate.
Qed.

(** ** FuseDepthTool::run *)

(** Whatever its outcome, the collecting loop adds nothing to the trace but
    depth-map loads. *)
Lemma collect_trace_loads (host : Host) (cameras : gmap frame_id_t camera_sptr)
    (depths : depth_lookup)
    (out : list camera_perspective_sptr * list image_container_sptr)
    (tr : list event) :
  ∃ loads,
    (collect host cameras depths out tr).2 = tr ++ loads ∧ Forall is_load loads.
Proof.
  revert out tr. induction depths as [|[f name] rest IH]; intros [cs ds] tr.
  - exists []. simpl. rewrite app_nil_r. done.
  - simpl. destruct (cameras !! f) as [cam|]; [|apply IH].
    unfold mbind, prog_bind, emit, lift. simpl.
    destruct (load_depth_map (disk host) name) as [img|].
    + destruct (IH (cs ++ [dynamic_pointer_cast_camera_perspective cam],
                    ds ++ [Some img]) (tr ++ [LoadDepthMap f name]))
        as (loads & Htr & Hloads).
      exists (LoadDepthMap f name :: loads). split.
      * rewrite Htr, <- app_assoc. reflexivity.
      * constructor; [exact I|exact Hloads].
    + exists [LoadDepthMap f name]. simpl. split; [reflexivity|].
      constructor; [exact I|constructor].
Qed.

(** The shape of every run: depth-map loads, and then nothing (the run is
    undefined before it reaches [integrate]), or the call of [integrate]
    alone (the run is undefined after it), or the call of [integrate], the
    line on [cerr] and one publication, after which the run returns.  So a
    run never loads after [integrate], never publishes without having
    called it, and calls it and publishes at most once. *)
Theorem run_trace_shape (host : Host) (tool : FuseDepthTool) :
  ∃ loads ending,
    (run host tool).2 = loads ++ ending
    ∧ Forall is_load loads
    ∧ run_ending (run host tool).1 ending.
Proof.
  unfold run, run_prog, mbind, prog_bind, deref, lift, emit.
  destruct (td_depthLookup (data tool)) as [depths|];
    [|exists [], []; simpl; repeat split; constructor].
  destruct (td_cameras (data tool)) as [cameras|];
    [|exists [], []; simpl; repeat split; constructor].
  destruct (collect_trace_loads host cameras depths ([], []) []) as (loads & Htr & Hloads).
  simpl in Htr.
  destruct (collect host cameras depths ([], []) []) as [[[cs ds]|] tr]; simpl in Htr;
    subst tr; [|exists loads, []; rewrite app_nil_r; repeat split; [done|constructor]].
  destruct (td_roi (data tool)) as [roi|];
    [|exists loads, []; simpl; rewrite app_nil_r; repeat split; [done|constructor]].
  destruct (fuse_algo tool) as [algo|];
    [|exists loads, []; simpl; rewrite app_nil_r; repeat split; [done|constructor]].
  simpl.
  destruct (integrate algo (XMin roi) (XMax roi) ds cs) as [volume spacing].
  destruct (volume_to_vtk volume (XMin roi) spacing) as [grid|];
    [|eexists loads, [_]; simpl; repeat split; [done|constructor]].
  destruct volume as [vol|];
    [|eexists loads, [_]; simpl; repeat split; [done|constructor]].
  simpl. eexists loads, [_; _; _]. rewrite <- !app_assoc. simpl.
  repeat split; [done|constructor].
Qed.

(** A run that lacks the region of interest or the algorithm (no successful
    [execute] came before it) is undefined, and loading depth maps is all it
    has done: the null pointer is met only after the collecting loop. *)
Theorem run_without_roi_or_algorithm (host : Host) (tool : FuseDepthTool) :
  td_roi (data tool) = None ∨ fuse_algo tool = None →
  (run host tool).1 = Undefined ∧ Forall is_load (run host tool).2.
Proof.
  intros Hnull.
  unfold run, run_prog, mbind, prog_bind, deref, lift, emit.
  destruct (td_depthLookup (data tool)) as [depths|]; [|split; [reflexivity|constructor]].
  destruct (td_cameras (data tool)) as [cameras|]; [|split; [reflexivity|constructor]].
  destruct (collect_trace_loads host cameras depths ([], []) []) as (loads & Htr & Hloads).
  simpl in Htr.
  destruct (collect host cameras depths ([], []) []) as [[[cs ds]|] tr]; simpl in Htr;
    subst tr; [|done].
  destruct (td_roi (data tool)) as [roi|]; [|done].
  destruct (fuse_algo tool) as [algo|]; [|done].
  destruct Hnull; discriminate.
Qed.

Lemma run_without_roi_or_algorithm_witness :
  (run sample_host tool_without_algo).1 = Undefined
  ∧ Forall is_load (run sample_host tool_without_algo).2.
Proof.
  apply (run_without_roi_or_algorithm sample_host tool_without_algo).
  right. reflexivity.
Defined.

(** The collecting loop stops at the first depth map that does not load:
    it is undefined there, the load of that file being the last thing
    done. *)
Lemma collect_stops_at_failed_load (host : Host)
    (cameras : gmap frame_id_t camera_sptr) (depths : depth_lookup)
    (out : list camera_perspective_sptr * list image_container_sptr)
    (tr : list event) (f : frame_id_t) (name : string) :
  (f, name) ∈ depths → is_Some (cameras !! f) →
  load_depth_map (disk host) name = Undefined →
  ∃ loads f0 name0,
    collect host cameras depths out tr
    = (Undefined, tr ++ loads ++ [LoadDepthMap f0 name0])
    ∧ Forall (λ e, ∃ f1 name1 img,
                   e = LoadDepthMap f1 name1
                   ∧ load_depth_map (disk host) name1 = Returned img) loads
    ∧ (f0, name0) ∈ depths
    ∧ is_Some (cameras !! f0)
    ∧ load_depth_map (disk host) name0 = Undefined.
Proof.
  revert out tr. induction depths as [|[f1 name1] rest IH]; intros [cs ds] tr Hin Hcam Hbad.
  - by apply elem_of_nil in Hin.
  - simpl. destruct (cameras !! f1) as [cam|] eqn:Hcam1.
    + unfold mbind, prog_bind, emit, lift. simpl.
      destruct (load_depth_map (disk host) name1) as [img|] eqn:Hload1.
      * apply elem_of_cons in Hin as [Heq | Hin]; [injection Heq as -> ->; congruence|].
        destruct (IH (cs ++ [dynamic_pointer_cast_camera_perspective cam],
                      ds ++ [Some img]) (tr ++ [LoadDepthMap f1 name1]) Hin Hcam Hbad)
          as (loads & f0 & name0 & Hrun & Hloads & Hin0 & Hcam0 & Hbad0).
        exists (LoadDepthMap f1 name1 :: loads), f0, name0.
        split; [|split; [|split; [|split]]].
        -- rewrite Hrun, <- !app_assoc. reflexivity.
        -- constructor; [by exists f1, name1, img|exact Hloads].
        -- by apply list_elem_of_further.
        -- exact Hcam0.
        -- exact Hbad0.
      * exists [], f1, name1. split; [reflexivity|].
        split; [constructor|]. split; [apply list_elem_of_here|].
        split; [by rewrite Hcam1|exact Hload1].
    + apply elem_of_cons in Hin as [Heq | Hin].
      { injection Heq as -> ->. rewrite Hcam1 in Hcam. by destruct Hcam. }
      destruct (IH (cs, ds) tr Hin Hcam Hbad)
        as (loads & f0 & name0 & Hrun & Hloads & Hin0 & Hcam0 & Hbad0).
      exists loads, f0, name0. split; [exact Hrun|].
      split; [exact Hloads|]. split; [by apply list_elem_of_further|].
      split; [exact Hcam0|exact Hbad0].
Qed.

Lemma null_depths_undefined (files : filesystem) (name : string) :
  null_depths (files name) → load_depth_map files name = Undefined.
Proof.
  intros (Hnull & Hw & Hh).
  destruct (id_dimensions (files name)) as [[w h] d] eqn:Hdims. simpl in Hw, Hh.
  rewrite (load_depth_map_null files name w h d Hdims Hnull).
  by rewrite decide_True.
Qed.

(** A depth-map file without the double-precision array "Depths" ends the
    run.  When the file of some frame that has a camera has pixels to fill
    and no such array, and the files of the other such frames either load or
    are of the same kind, the run stops in the load of the first file of
    that kind, where the null pointer of the failed cast is read through:
    the loads before it went well, and [integrate] is not called on the
    depth maps they gave. *)
Theorem run_stops_at_failed_load (host : Host) (tool : FuseDepthTool)
    (depths : depth_lookup) (cameras : gmap frame_id_t camera_sptr)
    (f : frame_id_t) (name : string) :
  td_depthLookup (data tool) = Some depths →
  td_cameras (data tool) = Some cameras →
  (f, name) ∈ depths → is_Some (cameras !! f) →
  null_depths (disk host name) →
  (∀ f' name', (f', name') ∈ depths → is_Some (cameras !! f') →
     (∃ img, load_depth_map (disk host) name' = Returned img)
     ∨ null_depths (disk host name')) →
  ∃ loads f0 name0,
    run host tool = (Undefined, loads ++ [LoadDepthMap f0 name0])
    ∧ Forall (λ e, ∃ f1 name1 img,
                   e = LoadDepthMap f1 name1
                   ∧ load_depth_map (disk host) name1 = Returned img) loads
    ∧ (f0, name0) ∈ depths
    ∧ null_depths (disk host name0).
Proof.
  intros Hd Hc Hin Hcam Hnull Hfiles.
  destruct (collect_stops_at_failed_load host cameras depths ([], []) [] f name
              Hin Hcam (null_depths_undefined _ _ Hnull))
    as (loads & f0 & name0 & Hrun & Hloads & Hin0 & Hcam0 & Hbad0).
  exists loads, f0, name0. split; [|split; [exact Hloads|split; [exact Hin0|]]].
  - unfold run, run_prog, mbind, prog_bind, deref, lift, emit.
    rewrite Hd, Hc. simpl. rewrite Hrun. reflexivity.
  - destruct (Hfiles f0 name0 Hin0 Hcam0) as [[img Himg] | Hnull0]; [congruence|].
    exact Hnull0.
Qed.

Lemma run_stops_at_failed_load_witness :
  ∃ loads f0 name0,
    run sample_host tool_with_bad_file = (Undefined, loads ++ [LoadDepthMap f0 name0])
    ∧ Forall (λ e, ∃ f1 name1 img,
                   e = LoadDepthMap f1 name1
                   ∧ load_depth_map (disk sample_host) name1 = Returned img) loads
    ∧ (f0, name0) ∈ [(1, "depth_1.vti"); (2, "single.vti")]
    ∧ null_depths (disk sample_host name0).
Proof.
  apply (run_stops_at_failed_load sample_host tool_with_bad_file
           [(1, "depth_1.vti"); (2, "single.vti")] sample_cameras 2 "single.vti").
  - reflexivity.
  - reflexivity.
  - apply list_elem_of_further, list_elem_of_here.
  - eexists. reflexivity.
  - split; [reflexivity|]. simpl. lia.
  - intros f' name'. rewrite !elem_of_cons, elem_of_nil.
    intros [H | [H | []]] _; injection H as -> ->.
    + left. eexists. reflexivity.
    + right. split; [reflexivity|]. simpl. lia.
Defined.

(** What a run does once the collecting loop has returned. *)
Lemma run_after_collect (host : Host) (tool : FuseDepthTool) (depths : depth_lookup)
    (cameras : gmap frame_id_t camera_sptr) (roi : vtkBox)
    (algo : integrate_depth_maps)
    (cs : list camera_perspective_sptr) (ds : list image_container_sptr)
    (loads : list event) :
  td_depthLookup (data tool) = Some depths →
  td_cameras (data tool) = Some cameras →
  td_roi (data tool) = Some roi →
  fuse_algo tool = Some algo →
  collect host cameras depths ([], []) [] = (Returned (cs, ds), loads) →
  ∃ ending,
    run host tool = ((run host tool).1, loads ++ ending)
    ∧ run_ending (run host tool).1 ending
    ∧ ∃ rest, ending = Integrate (XMin roi) (XMax roi) ds cs :: rest.
Proof.
  intros Hd Hc Hr Ha Hrun.
  unfold run, run_prog, mbind, prog_bind, deref, lift, emit.
  rewrite Hd, Hc, Hr, Ha. simpl. rewrite Hrun. simpl.
  destruct (integrate algo (XMin roi) (XMax roi) ds cs) as [volume spacing].
  destruct (volume_to_vtk volume (XMin roi) spacing) as [grid|];
    [|eexists [_]; simpl; repeat split; [constructor|by eexists]].
  destruct volume as [vol|];
    [|eexists [_]; simpl; repeat split; [constructor|by eexists]].
  simpl. eexists [_; _; _]. rewrite <- !app_assoc. simpl.
  repeat split; [constructor|by eexists].
Qed.

Lemma collect_without_cameras (host : Host) (cameras : gmap frame_id_t camera_sptr)
    (depths : depth_lookup)
    (out : list camera_perspective_sptr * list image_container_sptr)
    (tr : list event) :
  (∀ f name, (f, name) ∈ depths → cameras !! f = None) →
  collect host cameras depths out tr = (Returned out, tr).
Proof.
  induction depths as [|[f name] rest IH]; intros Hnone; [reflexivity|].
  simpl. rewrite (Hnone f name) by apply list_elem_of_here.
  apply IH. intros f' name' Hin. apply (Hnone f' name'). by apply list_elem_of_further.
Qed.

(** When no frame of the depth-map lookup has a camera, the run opens no
    file at all and calls [integrate] at once, on two empty vectors. *)
Theorem run_without_common_frame (host : Host) (tool : FuseDepthTool)
    (depths : depth_lookup) (cameras : gmap frame_id_t camera_sptr)
    (roi : vtkBox) (algo : integrate_depth_maps) :
  td_depthLookup (data tool) = Some depths →
  td_cameras (data tool) = Some cameras →
  td_roi (data tool) = Some roi →
  fuse_algo tool = Some algo →
  (∀ f name, (f, name) ∈ depths → cameras !! f = None) →
  ∃ rest, (run host tool).2 = Integrate (XMin roi) (XMax roi) [] [] :: rest.
Proof.
  intros Hd Hc Hr Ha Hnone.
  destruct (run_after_collect host tool depths cameras roi algo [] [] []
              Hd Hc Hr Ha (collect_without_cameras host cameras depths _ _ Hnone))
    as (ending & Hrun & _ & rest & ->).
  exists rest. rewrite Hrun. reflexivity.
Qed.

Lemma run_without_common_frame_witness :
  ∃ rest,
    (run sample_host disjoint_tool).2
    = Integrate (XMin sample_roi) (XMax sample_roi) [] [] :: rest.
Proof.
  apply (run_without_common_frame sample_host disjoint_tool sample_lookup
           {[ 2 := Some (PerspectiveCamera (mk_camera_perspective 102)) ]}
           sample_roi sample_algo).
  - reflexivity.
  - reflexivity.
  - reflexivity.
  - reflexivity.
  - intros f name. unfold sample_lookup. rewrite !elem_of_cons, elem_of_nil.
    intros [H | [H | []]]; injection H as -> ->; reflexivity.
Defined.

(** With files that load, the collecting loop loads the files of the common
    entries, one load per entry, in the order of the lookup. *)
Lemma collect_loads_common_entries (host : Host)
    (cameras : gmap frame_id_t camera_sptr) (depths : depth_lookup)
    (cs : list camera_perspective_sptr) (ds : list image_container_sptr)
    (tr : list event) :
  (∀ f name, (f, name) ∈ depths → is_Some (cameras !! f) →
     ∃ img, load_depth_map (disk host) name = Returned img) →
  ∃ cs' ds',
    collect host cameras depths (cs, ds) tr
    = (Returned (cs', ds'),
       tr ++ ((λ entry, LoadDepthMap entry.1 entry.2) <$> common_entries cameras depths)).
Proof.
  revert cs ds tr. induction depths as [|[f name] rest IH]; intros cs ds tr Hload.
  - exists cs, ds. simpl. rewrite app_nil_r. reflexivity.
  - assert (∀ f' name', (f', name') ∈ rest → is_Some (cameras !! f') →
              ∃ img, load_depth_map (disk host) name' = Returned img) as Hrest.
    { intros f' name' Hin. apply Hload. by apply list_elem_of_further. }
    unfold common_entries. simpl.
    destruct (cameras !! f) as [cam|] eqn:Hcam.
    + destruct (Hload f name) as [img Himg]; [apply list_elem_of_here|by rewrite Hcam|].
      destruct (IH (cs ++ [dynamic_pointer_cast_camera_perspective cam])
                   (ds ++ [Some img]) (tr ++ [LoadDepthMap f name]) Hrest)
        as (cs' & ds' & Hrun).
      exists cs', ds'.
      unfold mbind, prog_bind, emit, lift. simpl. rewrite Himg, Hrun.
      unfold common_entries, depth_lookup.
      rewrite filter_cons_True by (simpl; by rewrite Hcam).
      rewrite fmap_cons, <- app_assoc. reflexivity.
    + destruct (IH cs ds tr Hrest) as (cs' & ds' & Hrun).
      exists cs', ds'. rewrite Hrun. unfold common_entries, depth_lookup.
      rewrite filter_cons_False by (simpl; rewrite Hcam; by intros [? ?]).
      reflexivity.
Qed.

Lemma common_entries_sorted (cameras : gmap frame_id_t camera_sptr)
    (depths : depth_lookup) :
  well_formed_lookup depths →
  StronglySorted Z.lt (common_entries cameras depths).*1.
Proof.
  unfold well_formed_lookup, common_entries, depth_lookup.
  induction depths as [|[f name] rest IH]; intros Hsorted; [constructor|].
  rewrite fmap_cons in Hsorted.
  apply StronglySorted_inv in Hsorted as [Hrest Hlt]. simpl in Hlt.
  destruct (decide (is_Some (cameras !! f))) as [Hcam|Hcam].
  - rewrite filter_cons_True by exact Hcam. rewrite fmap_cons.
    constructor; [by apply IH|]. simpl.
    apply Forall_forall. intros f' Hin.
    apply (proj1 (Forall_forall _ _) Hlt).
    apply list_elem_of_fmap in Hin as ([f2 name2] & -> & Hin).
    apply list_elem_of_filter in Hin as [_ Hin].
    apply list_elem_of_fmap. by exists (f2, name2).
  - rewrite filter_cons_False by exact Hcam. by apply IH.
Qed.

(** With files that load, the run opens the depth-map file of every entry
    whose frame has a camera, once each and by strictly increasing frame id
    (the order of the lookup), then calls [integrate]; no file is opened
    after that call. *)
Theorem run_loads_in_frame_order (host : Host) (tool : FuseDepthTool)
    (depths : depth_lookup) (cameras : gmap frame_id_t camera_sptr)
    (roi : vtkBox) (algo : integrate_depth_maps) :
  td_depthLookup (data tool) = Some depths →
  td_cameras (data tool) = Some cameras →
  td_roi (data tool) = Some roi →
  fuse_algo tool = Some algo →
  well_formed_lookup depths →
  (∀ f name, (f, name) ∈ depths → is_Some (cameras !! f) →
     ∃ img, load_depth_map (disk host) name = Returned img) →
  ∃ ds cs rest,
    (run host tool).2
    = ((λ entry, LoadDepthMap entry.1 entry.2) <$> common_entries cameras depths)
      ++ Integrate (XMin roi) (XMax roi) ds cs :: rest
    ∧ Forall (λ e, ¬ is_load e) rest
    ∧ StronglySorted Z.lt (common_entries cameras depths).*1.
Proof.
  intros Hd Hc Hr Ha Hwf Hload.
  destruct (collect_loads_common_entries host cameras depths [] [] [] Hload)
    as (cs & ds & Hcollect).
  destruct (run_after_collect host tool depths cameras roi algo cs ds _
              Hd Hc Hr Ha Hcollect) as (ending & Hrun & Hending & rest & ->).
  exists ds, cs, rest. split; [by rewrite Hrun|].
  split; [|by apply common_entries_sorted].
  inversion Hending; subst; repeat constructor; simpl; tauto.
Qed.

Lemma run_loads_in_frame_order_witness :
  ∃ ds cs rest,
    (run sample_host sample_tool).2
    = ((λ entry, LoadDepthMap entry.1 entry.2)
         <$> common_entries sample_cameras sample_lookup)
      ++ Integrate (XMin sample_roi) (XMax sample_roi) ds cs :: rest
    ∧ Forall (λ e, ¬ is_load e) rest
    ∧ StronglySorted Z.lt (common_entries sample_cameras sample_lookup).*1.
Proof.
  apply (run_loads_in_frame_order sample_host sample_tool sample_lookup
           sample_cameras sample_roi sample_algo).
  - reflexivity.
  - reflexivity.
  - reflexivity.
  - reflexivity.
  - exact sample_lookup_well_formed.
  - exact sample_lookup_loads.
Defined.

(** A camera that is not a perspective camera does not make the run skip
    its frame: the depth map is loaded and paired with a null camera
    pointer, and that pair is handed to [integrate]. *)
Theorem run_passes_null_camera (host : Host) (tool : FuseDepthTool)
    (depths : depth_lookup) (cameras : gmap frame_id_t camera_sptr)
    (roi : vtkBox) (algo : integrate_depth_maps)
    (i : nat) (f : frame_id_t) (cam : camera_sptr) :
  td_depthLookup (data tool) = Some depths →
  td_cameras (data tool) = Some cameras →
  td_roi (data tool) = Some roi →
  fuse_algo tool = Some algo →
  (∀ f name, (f, name) ∈ depths → is_Some (cameras !! f) →
     ∃ img, load_depth_map (disk host) name = Returned img) →
  frames_in_both cameras depths !! i = Some f →
  cameras !! f = Some cam →
  dynamic_pointer_cast_camera_perspective cam = None →
  ∃ loads ds cs rest img,
    (run host tool).2 = loads ++ Integrate (XMin roi) (XMax roi) ds cs :: rest
    ∧ Forall is_load loads
    ∧ cs !! i = Some None
    ∧ ds !! i = Some (Some img).
Proof.
  intros Hd Hc Hr Ha Hload Hi Hcam Hcast.
  destruct (run_unfolded host tool depths cameras roi algo Hd Hc Hr Ha Hload)
    as (picked & Hrun & Hframes & Hall).
  simpl in Hrun. rewrite <- Hframes in Hi.
  apply list_lookup_fmap_Some in Hi as (p & -> & Hp).
  pose proof (proj1 (Forall_lookup _ _) Hall i p Hp) as (_ & Hcam' & _).
  rewrite Hcam in Hcam'. injection Hcam' as Hcam'.
  exists ((λ p, LoadDepthMap p.1.1.1 p.1.1.2) <$> picked).
  exists ((λ p, Some p.2) <$> picked).
  exists ((λ p, dynamic_pointer_cast_camera_perspective p.1.2) <$> picked).
  assert (∃ rest, (run host tool).2
                  = ((λ p, LoadDepthMap p.1.1.1 p.1.1.2) <$> picked)
                    ++ Integrate (XMin roi) (XMax roi) ((λ p, Some p.2) <$> picked)
                         ((λ p, dynamic_pointer_cast_camera_perspective p.1.2) <$> picked)
                       :: rest) as [rest Hrest].
  { rewrite Hrun.
    destruct (integrate algo _ _ _ _) as [volume spacing]. simpl.
    destruct (volume_to_vtk volume (XMin roi) spacing) as [grid|];
      destruct volume as [vol|]; eexists; reflexivity. }
  exists rest, p.2. split; [exact Hrest|]. split; [|split].
  - apply Forall_fmap, Forall_forall. intros q _. exact I.
  - rewrite list_lookup_fmap, Hp. simpl. rewrite <- Hcam', Hcast. reflexivity.
  - rewrite list_lookup_fmap, Hp. reflexivity.
Qed.

Lemma run_passes_null_camera_witness :
  ∃ loads ds cs rest img,
    (run sample_host tool_with_other_camera).2
    = loads ++ Integrate (XMin sample_roi) (XMax sample_roi) ds cs :: rest
    ∧ Forall is_load loads
    ∧ cs !! 1%nat = Some None
    ∧ ds !! 1%nat = Some (Some img).
Proof.
  apply (run_passes_null_camera sample_host tool_with_other_camera sample_lookup
           {[ 1 := Some (PerspectiveCamera (mk_camera_perspective 101));
              3 := Some (OtherCamera 7) ]}
           sample_roi sample_algo 1 3 (Some (OtherCamera 7))).
  - reflexivity.
  - reflexivity.
  - reflexivity.
  - reflexivity.
  - intros f name. unfold sample_lookup. rewrite !elem_of_cons, elem_of_nil.
    intros [H | [H | []]] _; injection H as -> ->; eexists; reflexivity.
  - reflexivity.
  - reflexivity.
  - reflexivity.
Defined.

Lemma execute_started_inputs (host : Host) (tool : FuseDepthTool) :
  StartTool ∈ er_trace (execute host tool) →
  data (er_tool (execute host tool)) = data tool
  ∧ ∃ depths cameras,
      td_depthLookup (data tool) = Some depths
      ∧ td_cameras (data tool) = Some cameras.
Proof.
  unfold execute.
  destruct (negb (hasCameras tool) || negb (hasDepthLookup tool)) eqn:Hin.
  { simpl. rewrite list_elem_of_singleton. discriminate. }
  intros Hstart. split.
  - destruct (readConfig host "gui_integrate_depth_maps.conf") as [file_config|];
      [|reflexivity].
    by destruct (check_nested_algo_configuration host BLOCK_IDM
                   (merge_config host file_config (td_config (data tool)))).
  - clear Hstart. unfold hasCameras, hasDepthLookup in Hin.
    destruct (td_cameras (data tool)) as [cameras|]; [|discriminate].
    destruct (td_depthLookup (data tool)) as [depths|];
      [|rewrite orb_true_r in Hin; discriminate].
    by exists depths, cameras.
Qed.

(** [execute] and [run] together: when [execute] has started the tool, the
    run on the tool it leaves finds its depth-map lookup and its cameras,
    and with a region of interest, a constructed algorithm and files that
    load it gets as far as the call of [integrate]. *)
Theorem run_after_execute (host : Host) (tool : FuseDepthTool) (roi : vtkBox)
    (algo : integrate_depth_maps) :
  StartTool ∈ er_trace (execute host tool) →
  td_roi (data tool) = Some roi →
  fuse_algo (er_tool (execute host tool)) = Some algo →
  (∀ depths cameras f name,
     td_depthLookup (data tool) = Some depths →
     td_cameras (data tool) = Some cameras →
     (f, name) ∈ depths → is_Some (cameras !! f) →
     ∃ img, load_depth_map (disk host) name = Returned img) →
  ∃ loads ds cs rest,
    (run host (er_tool (execute host tool))).2
    = loads ++ Integrate (XMin roi) (XMax roi) ds cs :: rest
    ∧ Forall is_load loads.
Proof.
  intros Hstart Hr Ha Hload.
  destruct (execute_started_inputs host tool Hstart)
    as (Hdata & depths & cameras & Hd & Hc).
  rewrite <- Hdata in Hd, Hc, Hr.
  destruct (collect_loads_common_entries host cameras depths [] [] []
              (λ f name, Hload depths cameras f name
                           (eq_trans (f_equal td_depthLookup (eq_sym Hdata)) Hd)
                           (eq_trans (f_equal td_cameras (eq_sym Hdata)) Hc)))
    as (cs & ds & Hcollect).
  destruct (run_after_collect host (er_tool (execute host tool)) depths cameras
              roi algo cs ds _ Hd Hc Hr Ha Hcollect)
    as (ending & Hrun & _ & rest & ->).
  eexists _, ds, cs, rest. split; [by rewrite Hrun|].
  apply Forall_fmap, Forall_forall. intros entry _. exact I.
Qed.

Lemma run_after_execute_witness :
  ∃ loads ds cs rest,
    (run sample_host (er_tool (execute sample_host sample_tool))).2
    = loads ++ Integrate (XMin sample_roi) (XMax sample_roi) ds cs :: rest
    ∧ Forall is_load loads.
Proof.
  apply (run_after_execute sample_host sample_tool sample_roi sample_algo).
  - vm_compute. apply list_elem_of_further, list_elem_of_further,
      list_elem_of_further, list_elem_of_here.
  - reflexivity.
  - reflexivity.
  - intros depths cameras f name Hd Hc. injection Hd as <-. injection Hc as <-.
    apply sample_lookup_loads.
Defined.

(** ** volume_to_vtk *)

(** A volume with a dimension of zero converts without any voxel being
    read: the grid has no point and its scalar array no value. *)
Theorem volume_to_vtk_empty_volume (vol : image) (origin spacing : vector_3d) :
  0 ≤ width vol < 2 ^ 32 → 0 ≤ height vol < 2 ^ 32 → 0 ≤ depth vol < 2 ^ 32 →
  width vol = 0 ∨ height vol = 0 ∨ depth vol = 0 →
  ∃ grid,
    volume_to_vtk (Some vol) origin spacing = Returned grid
    ∧ sg_points grid = []
    ∧ sg_point_data grid = []
    ∧ sg_cell_data grid
      = [DoubleArray (mk_vtkDoubleArray "reconstruction_scalar" 1 [])].
Proof.
  intros Hw Hh Hd Hzero.
  assert (readable vol) as Hread by (intros i j k Hi Hj Hk; lia).
  assert (width vol * height vol * depth vol < 2 ^ 63) as Hfit
    by (destruct Hzero as [H | [H | H]]; rewrite H; lia).
  destruct (volume_to_vtk_grid vol origin spacing Hw Hh Hd Hfit Hread)
    as (grid & vals & Hgrid & Hcell & Hpoint & Hname & Hcomp & Hlen & _).
  exists grid. split; [exact Hgrid|]. split; [|split; [exact Hpoint|]].
  - destruct (volume_to_vtk_points vol origin spacing grid Hgrid) as [_ ->].
    apply nil_length_inv.
    rewrite (length_bind_const _
               (Z.to_nat (to_int (height vol)) * (Z.to_nat (to_int (width vol)) * 1))).
    + rewrite length_seqZ. destruct Hzero as [H | [H | H]]; rewrite H; simpl; lia.
    + intros k. rewrite (length_bind_const _ (Z.to_nat (to_int (width vol)) * 1)).
      * rewrite length_seqZ. reflexivity.
      * intros j. rewrite (length_bind_const _ 1%nat); [|reflexivity].
        rewrite length_seqZ. reflexivity.
  - rewrite Hcell. do 2 f_equal.
    destruct vals as [name comps values]. simpl in *. subst name comps.
    f_equal. apply nil_length_inv.
    assert (width vol * height vol * depth vol = 0)
      by (destruct Hzero as [H | [H | H]]; rewrite H; lia).
    lia.
Qed.

Lemma volume_to_vtk_empty_volume_witness :
  ∃ grid,
    volume_to_vtk (Some flat_volume) (0, 0, 0)%float (1, 1, 1)%float = Returned grid
    ∧ sg_points grid = []
    ∧ sg_point_data grid = []
    ∧ sg_cell_data grid
      = [DoubleArray (mk_vtkDoubleArray "reconstruction_scalar" 1 [])].
Proof.
  apply (volume_to_vtk_empty_volume flat_volume (0, 0, 0)%float (1, 1, 1)%float).
  - simpl. lia.
  - simpl. lia.
  - simpl. lia.
  - right. right. reflexivity.
Defined.

(** The scalar array is in point order.  For a readable volume whose
    dimensions fit an [int] and whose number of voxels fits a [vtkIdType],
    the grid has the dimensions of the volume as its numbers of points, as
    many points as the array has values, and for every voxel (i, j, k) the
    point of the voxel's linear index lies at origin + (i, j, k) * spacing
    while the value of that index is the voxel's: so the points of each
    axis stop at index dimension - 1. *)
Theorem volume_to_vtk_values_in_point_order (vol : image)
    (origin spacing : vector_3d) :
  0 ≤ width vol < 2 ^ 31 → 0 ≤ height vol < 2 ^ 31 → 0 ≤ depth vol < 2 ^ 31 →
  width vol * height vol * depth vol < 2 ^ 63 →
  readable vol →
  ∃ grid vals,
    volume_to_vtk (Some vol) origin spacing = Returned grid
    ∧ sg_cell_data grid = [DoubleArray vals]
    ∧ sg_dimensions grid = (width vol, height vol, depth vol)
    ∧ length (sg_points grid) = length (da_values vals)
    ∧ ∀ i j k, 0 ≤ i < width vol → 0 ≤ j < height vol → 0 ≤ k < depth vol →
        lookupZ (sg_points grid) (linear_index vol i j k)
        = Some (grid_point origin spacing i j k)
        ∧ buffer_read (da_values vals) (linear_index vol i j k) = image_at vol i j k.
Proof.
  intros Hw Hh Hd Hfit Hread.
  destruct (volume_to_vtk_point_grid vol origin spacing Hw Hh Hd Hfit Hread)
    as (grid & vals & Hgrid & Hcell & _ & _ & Hdims & Hlen & Hpoints).
  by exists grid, vals.
Qed.

Lemma volume_to_vtk_values_in_point_order_witness :
  ∃ grid vals,
    volume_to_vtk (Some sample_volume) (0, 0, 0)%float (1, 1, 1)%float = Returned grid
    ∧ sg_cell_data grid = [DoubleArray vals]
    ∧ sg_dimensions grid = (width sample_volume, height sample_volume, depth sample_volume)
    ∧ length (sg_points grid) = length (da_values vals)
    ∧ ∀ i j k, 0 ≤ i < width sample_volume → 0 ≤ j < height sample_volume →
        0 ≤ k < depth sample_volume →
        lookupZ (sg_points grid) (linear_index sample_volume i j k)
        = Some (grid_point (0, 0, 0)%float (1, 1, 1)%float i j k)
        ∧ buffer_read (da_values vals) (linear_index sample_volume i j k)
          = image_at sample_volume i j k.
Proof.
  apply (volume_to_vtk_values_in_point_order sample_volume
           (0, 0, 0)%float (1, 1, 1)%float).
  - simpl. lia.
  - simpl. lia.
  - simpl. lia.
  - simpl. lia.
  - exact sample_volume_readable.
Defined.

(** ** load_depth_map *)

Lemma for_each_preserves {S : Type} (body : Z → S → outcome S) (Q : S → Prop)
    (idx : list Z) (s s' : S) :
  (∀ i s0 s1, i ∈ idx → Q s0 → body i s0 = Returned s1 → Q s1) →
  Q s → for_each body idx s = Returned s' → Q s'.
Proof.
  revert s. induction idx as [|i rest IH]; intros s Hbody Hs Hrun; simpl in Hrun.
  - by injection Hrun as <-.
  - destruct (body i s) as [s1|] eqn:Hstep; [|discriminate].
    apply (IH s1); [|by eapply Hbody; [apply list_elem_of_here| |]|exact Hrun].
    intros j s0 s2 Hj. apply Hbody. by apply list_elem_of_further.
Qed.

Lemma buffer_read_unwritten (n : nat) (i : Z) :
  buffer_read (replicate n None) i = Undefined.
Proof.
  unfold buffer_read, lookupZ. case_decide; [|reflexivity].
  destruct (replicate n (@None double) !! Z.to_nat i) as [cell|] eqn:Hcell;
    [|reflexivity].
  apply lookup_replicate_1 in Hcell as [-> _]. reflexivity.
Qed.

(** A fresh image has no readable pixel. *)
Lemma image_new_unwritten (w h d i j k : Z) :
  image_at (image_new w h d false) i j k = Undefined.
Proof. unfold image_at. simpl. apply buffer_read_unwritten. Qed.

(** The two-index assignment writes into the first slice only. *)
Lemma image_assign_upper_slices (w h d : Z) (img img' : image) (x y : Z) (v : double) :
  planar w h d img → 0 ≤ x < w → 0 ≤ y < h →
  image_assign img x y v = Returned img' →
  ∀ x' y' k', 0 ≤ x' < w → 0 ≤ y' < h → 1 ≤ k' →
    image_at img' x' y' k' = image_at img x' y' k'.
Proof.
  intros (Hw & Hh & Hd & Hws & Hhs & Hds & Hlen) Hx Hy Hassign x' y' k' Hx' Hy' Hk'.
  unfold image_assign, buffer_write in Hassign.
  case_decide as Hin; [|discriminate]. simpl in Hassign. injection Hassign as <-.
  unfold image_at, pixel_index in *. simpl. rewrite Hws, Hhs, Hds in *.
  assert (0 ≤ w * y ≤ w * (h - 1)) by nia.
  assert (0 ≤ w * y') by nia.
  assert (w * h * 1 ≤ w * h * k') by (apply Z.mul_le_mono_nonneg_l; nia).
  rewrite buffer_read_insert by lia.
  rewrite decide_False by lia. reflexivity.
Qed.

(** The load copies the first width * height values of the array, whatever
    follows them, into the first slice of the image, and leaves the further
    slices of the image unwritten. *)
Lemma load_depth_map_values (disk : filesystem) (filename : string) (w h d : Z)
    (a : vtkDoubleArray) :
  id_dimensions (disk filename) = (w, h, d) → 0 ≤ w → 0 ≤ h → 1 ≤ d →
  GetArray (id_point_data (disk filename)) "Depths" = Some (DoubleArray a) →
  (∀ p, 0 ≤ p < w * h → ∃ c, buffer_read (da_values a) p = Returned c) →
  ∃ depth,
    load_depth_map disk filename = Returned depth
    ∧ planar w h d depth
    ∧ (∀ x y, 0 ≤ x < w → 0 ≤ y < h →
         image_at depth x y 0 = buffer_read (da_values a) ((h - 1 - y) * w + x))
    ∧ (∀ x y k, 0 ≤ x < w → 0 ≤ y < h → 1 ≤ k →
         image_at depth x y k = Undefined).
Proof.
  intros Hdims Hw Hh Hd Harr Hvals.
  unfold load_depth_map. rewrite Hdims, Harr. simpl.
  set (depths := Some a).
  assert (planar w h d (image_new w h d false)) as Hnew.
  { apply image_new_planar.
    assert (0 ≤ w * h) by (apply Z.mul_nonneg_nonneg; lia).
    apply Z.mul_nonneg_nonneg; lia. }
  edestruct (for_each_invariant
    (λ y st,
       for_each
         (λ x '(pt_id, depth),
            v ← GetValue depths pt_id;
            depth' ← image_assign depth x y v;
            Returned (pt_id + 1, depth'))
         (seqZ 0 w) st)
    (λ n st, st.1 = Z.of_nat n * w ∧ planar w h d st.2
       ∧ ∀ x' y', 0 ≤ x' < w → 0 ≤ y' < h → h - Z.of_nat n ≤ y' →
           image_at st.2 x' y' 0 = GetValue depths ((h - 1 - y') * w + x'))
    (reverse (seqZ 0 h)) (0, image_new w h d false))
    as ([pt img] & Hrun & Hpt & Hpl & Hat).
  - simpl. split; [lia|]. split; [exact Hnew|intros; lia].
  - intros n y [pt img] Hy (Hpt & Hpl & Hat). simpl in Hpt, Hpl, Hat.
    apply reverse_lookup_Some in Hy as [Hy Hn].
    rewrite length_seqZ in Hy, Hn.
    apply lookup_seqZ in Hy as [-> _].
    replace (0 + Z.of_nat (Z.to_nat h - Datatypes.S n)) with (h - 1 - Z.of_nat n) by lia.
    destruct (load_depth_map_row depths w h d (h - 1 - Z.of_nat n) pt img)
      as (img' & Hrow & Hpl' & Hat'); [lia|lia|lia|exact Hpl| |].
    { intros x Hx. apply Hvals. nia. }
    exists (pt + w, img'). split; [exact Hrow|]. simpl.
    split; [lia|]. split; [exact Hpl'|].
    intros x' y' Hx' Hy' Hge. rewrite Hat' by assumption.
    case_decide as Hrowy.
    + subst y' pt. f_equal. lia.
    + apply Hat; [assumption|assumption|lia].
  - simpl in Hpt, Hpl, Hat. exists img. split; [|split; [exact Hpl|split]].
    + match type of Hrun with
      | ?loop = _ => change (loop ≫= (λ st : Z * image, Returned st.2) = Returned img)
      end.
      rewrite Hrun. reflexivity.
    + intros x y Hx Hy. apply Hat; [assumption|assumption|].
      rewrite length_reverse, length_seqZ. lia.
    + pose (Q := λ st : Z * image,
                   planar w h d st.2
                   ∧ ∀ x y k, 0 ≤ x < w → 0 ≤ y < h → 1 ≤ k →
                       image_at st.2 x y k = Undefined).
      assert (Q (pt, img)) as [_ Hupper]; [|exact Hupper].
      eapply (for_each_preserves _ Q); [| |exact Hrun].
      * intros y st0 st1 Hy Hst0 Hrow.
        apply elem_of_reverse, elem_of_seqZ in Hy.
        eapply (for_each_preserves _ Q); [|exact Hst0|exact Hrow].
        intros x [pt0 img0] [pt1 img1] Hx%elem_of_seqZ [Hpl0 Hup0] Hstep.
        simpl in Hpl0, Hup0, Hstep.
        destruct (buffer_read (da_values a) pt0) as [v|]; simpl in Hstep; [|discriminate].
        destruct (image_assign img0 x y v) as [img2|] eqn:Hassign;
          simpl in Hstep; [|discriminate].
        injection Hstep as _ <-.
        destruct (image_assign_planar w h d img0 x y v Hpl0) as (img3 & Has & Hpl3 & _);
          [lia|lia|lia|].
        rewrite Hassign in Has. injection Has as <-.
        split; [exact Hpl3|]. simpl.
        intros x' y' k' Hx' Hy' Hk'.
        rewrite (image_assign_upper_slices w h d img0 img2 x y v) by (assumption || lia).
        by apply Hup0.
      * split; [exact Hnew|]. intros. apply image_new_unwritten.
Qed.

(** A file of several slices: with one value per grid point in its "Depths"
    array, the load copies only the first width * height of them, rows
    inverted, into slice 0 of an image that has all the slices of the file;
    the values of the further slices are never read and the further slices
    of the image are left unwritten. *)
Theorem load_depth_map_first_slice_only (disk : filesystem) (filename : string)
    (w h d : Z) (a : vtkDoubleArray) (values : list double) :
  id_dimensions (disk filename) = (w, h, d) → 0 ≤ w → 0 ≤ h → 1 ≤ d →
  GetArray (id_point_data (disk filename)) "Depths" = Some (DoubleArray a) →
  da_values a = Some <$> values →
  Z.of_nat (length values) = w * h * d →
  ∃ img,
    load_depth_map disk filename = Returned img
    ∧ width img = w ∧ height img = h ∧ depth img = d
    ∧ (∀ x y, 0 ≤ x < w → 0 ≤ y < h →
         ∃ c, lookupZ values ((h - 1 - y) * w + x) = Some c
              ∧ image_at img x y 0 = Returned c)
    ∧ (∀ x y k, 0 ≤ x < w → 0 ≤ y < h → 1 ≤ k → image_at img x y k = Undefined).
Proof.
  intros Hdims Hw Hh Hd Harr Hvalues Hlen.
  assert (∀ p, 0 ≤ p < w * h → ∃ c, lookupZ values p = Some c) as Hlookup.
  { intros p Hp. rewrite lookupZ_nonneg by lia.
    apply lookup_lt_is_Some_2.
    assert (w * h * 1 ≤ w * h * d) by (apply Z.mul_le_mono_nonneg_l; nia).
    lia. }
  destruct (load_depth_map_values disk filename w h d a Hdims Hw Hh Hd Harr)
    as (img & Hload & (Hwi & Hhi & Hdi & _) & Hat & Hupper).
  { intros p Hp. destruct (Hlookup p Hp) as [c Hc]. exists c.
    rewrite Hvalues. by apply buffer_read_fmap_Some. }
  exists img. repeat split; try done.
  intros x y Hx Hy.
  destruct (Hlookup ((h - 1 - y) * w + x)) as [c Hc]; [nia|].
  exists c. split; [exact Hc|].
  rewrite Hat by assumption. rewrite Hvalues. by apply buffer_read_fmap_Some.
Qed.

Lemma load_depth_map_first_slice_only_witness :
  ∃ img,
    load_depth_map (λ _, two_slice_file) "two.vti" = Returned img
    ∧ width img = 2 ∧ height img = 2 ∧ depth img = 2
    ∧ (∀ x y, 0 ≤ x < 2 → 0 ≤ y < 2 →
         ∃ c, lookupZ [1; 2; 3; 4; 5; 6; 7; 8]%float ((2 - 1 - y) * 2 + x) = Some c
              ∧ image_at img x y 0 = Returned c)
    ∧ (∀ x y k, 0 ≤ x < 2 → 0 ≤ y < 2 → 1 ≤ k → image_at img x y k = Undefined).
Proof.
  apply (load_depth_map_first_slice_only (λ _, two_slice_file) "two.vti" 2 2 2
           (mk_vtkDoubleArray "Depths" 1 (Some <$> [1; 2; 3; 4; 5; 6; 7; 8]%float))).
  - reflexivity.
  - lia.
  - lia.
  - lia.
  - reflexivity.
  - reflexivity.
  - reflexivity.
Defined.

(** ** A run whose algorithm returns no volume *)

(** When [integrate] hands back no volume, the run is undefined right after
    the call: the depth maps were loaded, [integrate] was called, and
    nothing is published. *)
Theorem run_with_null_volume (host : Host) (tool : FuseDepthTool)
    (depths : depth_lookup) (cameras : gmap frame_id_t camera_sptr)
    (roi : vtkBox) (algo : integrate_depth_maps) :
  td_depthLookup (data tool) = Some depths →
  td_cameras (data tool) = Some cameras →
  td_roi (data tool) = Some roi →
  fuse_algo tool = Some algo →
  (∀ f name, (f, name) ∈ depths → is_Some (cameras !! f) →
     ∃ img, load_depth_map (disk host) name = Returned img) →
  (∀ ds cs, (integrate algo (XMin roi) (XMax roi) ds cs).1 = None) →
  ∃ ds cs,
    run host tool
    = (Undefined,
       ((λ entry, LoadDepthMap entry.1 entry.2) <$> common_entries cameras depths)
       ++ [Integrate (XMin roi) (XMax roi) ds cs]).
Proof.
  intros Hd Hc Hr Ha Hload Hnull.
  destruct (collect_loads_common_entries host cameras depths [] [] [] Hload)
    as (cs & ds & Hcollect).
  exists ds, cs.
  unfold run, run_prog, mbind, prog_bind, deref, lift, emit.
  rewrite Hd, Hc, Hr, Ha. simpl. rewrite Hcollect. simpl.
  specialize (Hnull ds cs).
  destruct (integrate algo (XMin roi) (XMax roi) ds cs) as [volume spacing].
  simpl in Hnull. subst volume. reflexivity.
Qed.

Lemma run_with_null_volume_witness :
  ∃ ds cs,
    run sample_host tool_with_null_algo
    = (Undefined,
       ((λ entry, LoadDepthMap entry.1 entry.2)
          <$> common_entries sample_cameras sample_lookup)
       ++ [Integrate (XMin sample_roi) (XMax sample_roi) ds cs]).
Proof.
  apply (run_with_null_volume sample_host tool_with_null_algo sample_lookup
           sample_cameras sample_roi null_algo).
  - reflexivity.
  - reflexivity.
  - reflexivity.
  - reflexivity.
  - exact sample_lookup_loads.
  - reflexivity.
Defined.
